(** * A shallow embedding of the currency-shop bot (main.py)

    The bot keeps balances and shop items in two worksheets of a remote
    spreadsheet and answers Discord interactions.  The embedding follows
    main.py function by function:

    - [Py]       the Python primitives the code relies on ([int], [str],
                 [str.split], [in], slicing, [{:,}] formatting);
    - [Sheet]    a worksheet as its rows of cell texts, with [find], [cell],
                 [update_cell] and the padding of [get_all_values];
    - [Backend]  the two worksheets, a schedule of backend failures and the
                 printed log, threaded through an exception monad;
    - the helpers [get_currency], [update_currency], [get_items];
    - [ShopView], [BuyButton], the commands and the page-turn handler;
    - [handle_interactions], the HTTP entry point. *)

From Stdlib Require Import List String Ascii ZArith NArith Bool Lia.
From Stdlib Require Import DecimalString DecimalPos DecimalN DecimalZ.
Import ListNotations.

Local Open Scope string_scope.
Local Open Scope Z_scope.

(* ------------------------------------------------------------------ *)
(** ** Python primitives *)

Module Py.

(** The blanks [int] skips around a number: tab, line feed, vertical tab,
    form feed, carriage return and space.  (Texts are modelled as ASCII:
    [int] also accepts blanks and digits beyond ASCII, which no cell or tag
    written by this program contains.) *)
Definition is_space (c : ascii) : bool :=
  let n := nat_of_ascii c in
  ((9 <=? n) && (n <=? 13) || (n =? 32))%nat.

Fixpoint lstrip (s : string) : string :=
  match s with
  | String c r => if is_space c then lstrip r else s
  | EmptyString => EmptyString
  end.

Fixpoint rstrip (s : string) : string :=
  match s with
  | String c r =>
      match rstrip r with
      | EmptyString => if is_space c then EmptyString else String c EmptyString
      | r' => String c r'
      end
  | EmptyString => EmptyString
  end.

Definition strip (s : string) : string := rstrip (lstrip s).

(** The value of a decimal digit: [ord(c) - ord("0")] when [c] lies between
    ["0"] and ["9"]. *)
Definition digit_of (c : ascii) : option Z :=
  let code := Z.of_N (N_of_ascii c) in
  if (48 <=? code) && (code <=? 57) then Some (code - 48) else None.

(** The digits after a first digit: a single underscore may separate two
    digits, nothing else may appear. *)
Fixpoint int_digits (acc : Z) (s : string) : option Z :=
  match s with
  | EmptyString => Some acc
  | String "_"%char (String d r) =>
      match digit_of d with
      | Some v => int_digits (10 * acc + v) r
      | None => None
      end
  | String c r =>
      match digit_of c with
      | Some v => int_digits (10 * acc + v) r
      | None => None
      end
  end.

Definition int_unsigned (s : string) : option Z :=
  match s with
  | String c r =>
      match digit_of c with
      | Some v => int_digits v r
      | None => None
      end
  | EmptyString => None
  end.

(** [int(s)] on a string, base ten: [None] stands for [ValueError]. *)
Definition int (s : string) : option Z :=
  match strip s with
  | String "-"%char r => option_map Z.opp (int_unsigned r)
  | String "+"%char r => int_unsigned r
  | t => int_unsigned t
  end.

(** [str(z)] on an integer. *)
Definition str (z : Z) : string := NilZero.string_of_int (Z.to_int z).

(** [s.split(sep)] for a one-character separator. *)
Fixpoint split (sep : ascii) (s : string) : list string :=
  match s with
  | EmptyString => [EmptyString]
  | String c r =>
      if Ascii.eqb c sep then EmptyString :: split sep r
      else match split sep r with
           | w :: ws => String c w :: ws
           | [] => [String c EmptyString]
           end
  end.

(** [l[-1]] on a list of strings that is never empty here. *)
Definition last_field (l : list string) : string := List.last l EmptyString.

(** [needle in s]. *)
Fixpoint contains (needle s : string) : bool :=
  String.prefix needle s ||
  match s with
  | String _ r => contains needle r
  | EmptyString => false
  end.

(** [l[start:stop]] with Python's treatment of negative and overlong
    indices. *)
Definition clamp_index (n i : Z) : Z :=
  let j := if i <? 0 then i + n else i in
  if j <? 0 then 0 else if n <? j then n else j.

Definition slice {A} (l : list A) (start stop : Z) : list A :=
  let n := Z.of_nat (List.length l) in
  let s := clamp_index n start in
  let e := clamp_index n stop in
  firstn (Z.to_nat (e - s)) (skipn (Z.to_nat s) l).

(** [f"{z:,}"]: the decimal digits in groups of three from the right. *)
Fixpoint group3 (rev_digits : list ascii) : list ascii :=
  match rev_digits with
  | a :: b :: c :: ((_ :: _) as r) => a :: b :: c :: ","%char :: group3 r
  | l => l
  end.

Definition commas (digits : string) : string :=
  string_of_list_ascii (rev (group3 (rev (list_ascii_of_string digits)))).

Definition format_comma (z : Z) : string :=
  match str z with
  | String "-"%char r => String "-"%char (commas r)
  | s => commas s
  end.

(** [s.replace(",", "")], to read a formatted number back. *)
Definition not_comma (c : ascii) : bool := negb (Ascii.eqb c ","%char).

Definition without_commas (s : string) : string :=
  string_of_list_ascii (filter not_comma (list_ascii_of_string s)).

(** Every character of [s] satisfies [p]. *)
Fixpoint all_chars (p : ascii -> bool) (s : string) : bool :=
  match s with
  | EmptyString => true
  | String c r => p c && all_chars p r
  end.

Definition is_digit (c : ascii) : bool :=
  match digit_of c with Some _ => true | None => false end.

(** The characters [str] produces on an integer. *)
Definition is_int_char (c : ascii) : bool :=
  is_digit c || Ascii.eqb c "-"%char.

End Py.

(* ------------------------------------------------------------------ *)
(** ** Worksheets *)

Module Sheet.

(** A worksheet is stored as its rows from the top, each the list of its
    cell texts up to the last cell that was written.  Rows and columns are
    numbered from 1, as in gspread. *)
Definition grid := list (list string).

(** The number of columns of the widest row. *)
Definition width (g : grid) : nat :=
  fold_right (fun row w => Nat.max (List.length row) w) 0%nat g.

Definition rightpad (w : nat) (row : list string) : list string :=
  (row ++ repeat EmptyString (w - List.length row))%list.

(** gspread's [fill_gaps]: every row is padded with empty cells to the
    width of the widest row.  [get_all_values] returns the rows so padded. *)
Definition fill_gaps (g : grid) : grid := map (rightpad (width g)) g.

(** The row of a user in the data model: the first row whose first cell is
    the user id. *)
Fixpoint user_row_from (uid : string) (g : grid) (r : nat) : option nat :=
  match g with
  | [] => None
  | row :: g' =>
      match row with
      | v :: _ => if String.eqb v uid then Some r else user_row_from uid g' (S r)
      | [] => user_row_from uid g' (S r)
      end
  end.

Definition user_row (uid : string) (g : grid) : option nat :=
  user_row_from uid g 1.

Fixpoint find_in_row (q : string) (row : list string) (col : nat)
  : option nat :=
  match row with
  | [] => None
  | v :: r => if String.eqb v q then Some col else find_in_row q r (S col)
  end.

Fixpoint find_from (q : string) (g : grid) (r : nat) : option (nat * nat) :=
  match g with
  | [] => None
  | row :: g' =>
      match find_in_row q row 1 with
      | Some c => Some (r, c)
      | None => find_from q g' (S r)
      end
  end.

(** [worksheet.find(q)]: the first cell whose text is [q], rows from the
    top and each row from the left; [None] when no cell matches.  The search
    runs over every column.  (The cells gspread pads a short row with are
    empty, so they can only match the empty query; the user ids of this
    program are never empty.) *)
Definition find (q : string) (g : grid) : option (nat * nat) :=
  find_from q g 1.

(** [worksheet.cell(r, c).value]: an empty cell reads as the empty text. *)
Definition value (g : grid) (r c : nat) : string :=
  match r, c with
  | S r', S c' => nth c' (nth r' g []) EmptyString
  | _, _ => EmptyString
  end.

Fixpoint set_nth {A} (d : A) (n : nat) (v : A) (l : list A) : list A :=
  match n, l with
  | O, [] => [v]
  | O, _ :: t => v :: t
  | S n', [] => d :: set_nth d n' v []
  | S n', x :: t => x :: set_nth d n' v t
  end.

(** [worksheet.update_cell(r, c, v)]: the grid grows when the cell lies
    below the last row or right of the row's last cell. *)
Definition update (g : grid) (r c : nat) (v : string) : grid :=
  match r, c with
  | S r', S c' => set_nth [] r' (set_nth EmptyString c' v (nth r' g [])) g
  | _, _ => g
  end.

End Sheet.

(* ------------------------------------------------------------------ *)
(** ** The backend and the monad of the helpers *)

Inductive exn : Type :=
  | APIError          (* a failed call to the spreadsheet service *)
  | ValueError        (* [int] on text that is not an integer *)
  | IndexError        (* a list index out of range *)
  | JSONDecodeError   (* a request body that is not JSON *)
  | HandlerError (msg : string).  (* raised inside the interaction client *)

Inductive worksheet : Type := Currency | Items.

(** [faults] schedules the outcome of the coming backend calls: each call
    takes the head flag, and [true] makes that call raise.  An empty
    schedule is a healthy backend.  [log] is what [print] has written. *)
Record Backend : Type := mkBackend {
  currency_sheet : Sheet.grid;
  items_sheet : Sheet.grid;
  faults : list bool;
  log : list (string * exn)
}.

Definition grid_of (ws : worksheet) (st : Backend) : Sheet.grid :=
  match ws with
  | Currency => currency_sheet st
  | Items => items_sheet st
  end.

Definition with_grid (ws : worksheet) (g : Sheet.grid) (st : Backend)
  : Backend :=
  match ws with
  | Currency => mkBackend g (items_sheet st) (faults st) (log st)
  | Items => mkBackend (currency_sheet st) g (faults st) (log st)
  end.

Definition with_faults (f : list bool) (st : Backend) : Backend :=
  mkBackend (currency_sheet st) (items_sheet st) f (log st).

Definition print (prefix : string) (e : exn) (st : Backend) : Backend :=
  mkBackend (currency_sheet st) (items_sheet st) (faults st)
            (log st ++ [(prefix, e)]).

Definition M (A : Type) : Type := Backend -> (exn + A) * Backend.

Definition ret {A} (a : A) : M A := fun st => (inr a, st).

Definition raise {A} (e : exn) : M A := fun st => (inl e, st).

Definition bind {A B} (m : M A) (k : A -> M B) : M B :=
  fun st =>
    match m st with
    | (inr a, st') => k a st'
    | (inl e, st') => (inl e, st')
    end.

(** [try: m except Exception as e: h e]. *)
Definition try_except {A} (m : M A) (h : exn -> M A) : M A :=
  fun st =>
    match m st with
    | (inr a, st') => (inr a, st')
    | (inl e, st') => h e st'
    end.

Notation "x <- m ;; k" := (bind m (fun x => k))
  (at level 61, m at next level, right associativity).
Notation "m ;;; k" := (bind m (fun _ => k))
  (at level 61, right associativity).

Definition of_option {A} (e : exn) (o : option A) : M A :=
  match o with
  | Some a => ret a
  | None => raise e
  end.

Definition of_sum {A} (r : exn + A) : M A := fun st => (r, st).

(** One round trip to the spreadsheet service. *)
Definition api_call : M unit :=
  fun st =>
    match faults st with
    | true :: f => (inl APIError, with_faults f st)
    | false :: f => (inr tt, with_faults f st)
    | [] => (inr tt, st)
    end.

Definition ws_find (ws : worksheet) (q : string) : M (option (nat * nat)) :=
  api_call ;;; fun st => (inr (Sheet.find q (grid_of ws st)), st).

Definition ws_cell_value (ws : worksheet) (r c : nat) : M string :=
  api_call ;;; fun st => (inr (Sheet.value (grid_of ws st) r c), st).

Definition ws_get_all_values (ws : worksheet) : M Sheet.grid :=
  api_call ;;; fun st => (inr (Sheet.fill_gaps (grid_of ws st)), st).

Definition ws_update_cell (ws : worksheet) (r c : nat) (v : string) : M unit :=
  api_call ;;;
  fun st => (inr tt, with_grid ws (Sheet.update (grid_of ws st) r c v) st).

(* ------------------------------------------------------------------ *)
(** ** Helper functions *)

Definition get_currency_body (user_id : string) : M Z :=
  cell <- ws_find Currency user_id ;;
  match cell with
  | Some (row, _) =>
      v <- ws_cell_value Currency row 2 ;;
      of_option ValueError (Py.int v)
  | None =>
      all <- ws_get_all_values Currency ;;
      let next_row := S (List.length all) in
      ws_update_cell Currency next_row 1 user_id ;;;
      ws_update_cell Currency next_row 2 "0" ;;;
      ret 0
  end.

Definition get_currency_err : string := "Error getting currency: ".

(** The helper always returns: the handler of the [try] returns [0]. *)
Definition get_currency (user_id : string) (st : Backend) : Z * Backend :=
  match get_currency_body user_id st with
  | (inr b, st') => (b, st')
  | (inl e, st') => (0, print get_currency_err e st')
  end.

Definition update_currency_body (user_id : string) (amount : Z) : M bool :=
  cell <- ws_find Currency user_id ;;
  match cell with
  | Some (row, _) =>
      ws_update_cell Currency row 2 (Py.str amount) ;;;
      ret true
  | None => ret false
  end.

Definition update_currency_err : string := "Error updating currency: ".

Definition update_currency (user_id : string) (amount : Z) (st : Backend)
  : bool * Backend :=
  match update_currency_body user_id amount st with
  | (inr b, st') => (b, st')
  | (inl e, st') => (false, print update_currency_err e st')
  end.

Record ShopItem : Type := mkItem {
  name : string;
  price : Z;
  role_id : Z;
  image_filename : option string;
  description : string
}.

Definition no_description : string := "No description available.".

Definition nonempty (s : string) : bool :=
  match s with EmptyString => false | _ => true end.

(** The body of the [for] loop of [get_items] on one row that has at least
    three cells. *)
Definition item_of_row (row : list string) : exn + ShopItem :=
  let image :=
    if (3 <? List.length row)%nat && nonempty (nth 3 row EmptyString)
    then Some (nth 3 row EmptyString) else None in
  let descr :=
    if (4 <? List.length row)%nat && nonempty (nth 4 row EmptyString)
    then nth 4 row EmptyString else no_description in
  match Py.int (nth 1 row EmptyString) with
  | None => inl ValueError
  | Some p =>
      match Py.int (nth 2 row EmptyString) with
      | None => inl ValueError
      | Some r => inr (mkItem (nth 0 row EmptyString) p r image descr)
      end
  end.

Fixpoint collect_items (rows : Sheet.grid) (items : list ShopItem)
  : exn + list ShopItem :=
  match rows with
  | [] => inr items
  | row :: rest =>
      if (3 <=? List.length row)%nat then
        match item_of_row row with
        | inr it => collect_items rest (items ++ [it])
        | inl e => inl e
        end
      else collect_items rest items
  end.

Definition get_items_body : M (list ShopItem) :=
  all <- ws_get_all_values Items ;;
  of_sum (collect_items (List.tl all) []).

Definition get_items_err : string := "Error getting items: ".

Definition get_items (st : Backend) : list ShopItem * Backend :=
  match get_items_body st with
  | (inr l, st') => (l, st')
  | (inl e, st') => ([], print get_items_err e st')
  end.

(* ------------------------------------------------------------------ *)
(** ** Components, views and replies *)

Inductive ButtonStyle : Type := green | gray.

Record Button : Type := mkButton {
  style : ButtonStyle;
  label : string;
  custom_id : string;
  disabled : bool
}.

(** [BuyButton(Button)]: a button that remembers its item. *)
Record BuyButton : Type := mkBuyButton {
  buy_button : Button;
  buy_item : ShopItem
}.

Definition BuyButton_init (item : ShopItem) : BuyButton :=
  mkBuyButton
    (mkButton green ("Buy " ++ name item)
              ("buy_" ++ Py.str (role_id item)) false)
    item.

(** The plain [View()] of the navigation row, which only ever receives
    plain buttons. *)
Record View : Type := mkView { view_children : list Button }.

Definition View_init : View := mkView [].

Definition view_add_item (b : Button) (v : View) : View :=
  mkView (view_children v ++ [b])%list.

(** What the shop view's [add_item] is given in this program: a purchase
    button or a whole view (the navigation row). *)
Inductive Component : Type :=
  | ItemButton (b : BuyButton)
  | Row (v : View).

Record ShopView : Type := mkShopView {
  timeout : Z;
  children : list Component;
  items : list ShopItem;
  page : Z;
  items_per_page : Z;
  total_pages : Z
}.

Definition clear_items (v : ShopView) : ShopView :=
  mkShopView (timeout v) [] (items v) (page v) (items_per_page v)
             (total_pages v).

Definition add_item (c : Component) (v : ShopView) : ShopView :=
  mkShopView (timeout v) (children v ++ [c])%list (items v) (page v)
             (items_per_page v) (total_pages v).

Definition prev_label : string := "◀️".
Definition next_label : string := "▶️".

Definition prev_button (page : Z) : Button :=
  mkButton gray prev_label ("prev_page_" ++ Py.str page) (page =? 0).

Definition next_button (page total : Z) : Button :=
  mkButton gray next_label ("next_page_" ++ Py.str page) (total - 1 <=? page).

Definition update_buttons (self : ShopView) : ShopView :=
  let self := clear_items self in
  let start := page self * items_per_page self in
  let stop := start + items_per_page self in
  let self :=
    fold_left (fun v item => add_item (ItemButton (BuyButton_init item)) v)
              (Py.slice (items self) start stop) self in
  let nav_row := View_init in
  let nav_row := view_add_item (prev_button (page self)) nav_row in
  let nav_row :=
    view_add_item (next_button (page self) (total_pages self)) nav_row in
  add_item (Row nav_row) self.

(** [ShopView(items, page)]. *)
Definition ShopView_init (items : list ShopItem) (page : Z) : ShopView :=
  let per_page := 3 in
  update_buttons
    (mkShopView 180 [] items page per_page
       ((Z.of_nat (List.length items) + per_page - 1) / per_page)).

Record Field : Type := mkField {
  field_name : string;
  field_value : string;
  field_inline : bool
}.

Record Embed : Type := mkEmbed {
  title : string;
  embed_description : string;
  color : Z;
  thumbnail : option string;
  footer : option string;
  fields : list Field
}.

Definition set_thumbnail (url : string) (e : Embed) : Embed :=
  mkEmbed (title e) (embed_description e) (color e) (Some url) (footer e)
          (fields e).

Definition set_footer (text : string) (e : Embed) : Embed :=
  mkEmbed (title e) (embed_description e) (color e) (thumbnail e) (Some text)
          (fields e).

Definition add_field (f : Field) (e : Embed) : Embed :=
  mkEmbed (title e) (embed_description e) (color e) (thumbnail e) (footer e)
          (fields e ++ [f])%list.

Definition with_fields (fs : list Field) (e : Embed) : Embed :=
  mkEmbed (title e) (embed_description e) (color e) (thumbnail e) (footer e)
          fs.

(** What a handler hands to [i.response]: a new message ([send]) or an edit
    of the message the component sits on ([update_message]). *)
Inductive Response : Type :=
  | Send (content : option string) (embed : option Embed)
         (view : option ShopView) (ephemeral : bool)
  | UpdateMessage (embed : Embed) (view : ShopView).

Record Message : Type := mkMessage { embeds : list Embed }.

Record Interaction : Type := mkInteraction {
  author_id : Z;
  author_avatar_url : string;
  message : Message
}.

(** The purchase controls of a shop view, in order. *)
Definition purchase_controls (v : ShopView) : list BuyButton :=
  flat_map (fun c => match c with ItemButton b => [b] | Row _ => [] end)
           (children v).

(** The buttons of the navigation rows of a shop view, in order. *)
Definition nav_controls (v : ShopView) : list Button :=
  flat_map (fun c => match c with ItemButton _ => [] | Row r => view_children r end)
           (children v).

(* ------------------------------------------------------------------ *)
(** ** Commands and component handlers *)

Definition balance_hint : string := "Use /shop to browse available items".

Definition balance (i : Interaction) (st : Backend) : Response * Backend :=
  let user_id := Py.str (author_id i) in
  let '(balance_val, st) := get_currency user_id st in
  let embed :=
    mkEmbed "💰 Your Balance"
            ("You currently have **" ++ Py.format_comma balance_val
               ++ " coins**")
            16766720 None None [] in
  let embed := set_thumbnail (author_avatar_url i) embed in
  let embed := set_footer balance_hint embed in
  (Send None (Some embed) None true, st).

Definition purchased (item_name : string) : string :=
  "You have successfully purchased the " ++ item_name ++ " role!".

Definition not_enough : string :=
  "You do not have enough coins to purchase this role.".

Definition BuyButton_callback (self : BuyButton) (i : Interaction)
  (st : Backend) : Response * Backend :=
  let user_id := Py.str (author_id i) in
  let '(balance, st) := get_currency user_id st in
  let price := price (buy_item self) in
  if price <=? balance then
    let new_balance := balance - price in
    let '(_, st) := update_currency user_id new_balance st in
    (Send (Some (purchased (name (buy_item self)))) None None true, st)
  else
    (Send (Some not_enough) None None true, st).

Definition shop (i : Interaction) (st : Backend) : Response * Backend :=
  let '(items, st) := get_items st in
  match items with
  | [] => (Send (Some "The shop is currently empty.") None None true, st)
  | _ =>
      let view := ShopView_init items 0 in
      let embed :=
        mkEmbed "🛒 Role Shop"
                "Browse and purchase roles with your currency!"
                3447003 None None [] in
      let '(balance_val, st) := get_currency (Py.str (author_id i)) st in
      let embed :=
        add_field (mkField "Your Balance"
                     ("**" ++ Py.format_comma balance_val ++ " coins**") true)
                  embed in
      let embed :=
        add_field (mkField "Page" ("1/" ++ Py.str (total_pages view)) true)
                  embed in
      (Send None (Some embed) (Some view) true, st)
  end.

(** [fields[1]["value"] = v]: [None] stands for [IndexError]. *)
Definition set_field_value (n : nat) (v : string) (fs : list Field)
  : option (list Field) :=
  match nth_error fs n with
  | Some f =>
      Some (firstn n fs ++ mkField (field_name f) v (field_inline f)
              :: skipn (S n) fs)%list
  | None => None
  end.

Definition on_page_turn (i : Interaction) (custom_id : string)
  : M Response :=
  page <- of_option ValueError
            (Py.int (Py.last_field (Py.split "_" custom_id))) ;;
  let direction := if Py.contains "next" custom_id then 1 else -1 in
  let new_page := page + direction in
  items <- (fun st => let '(l, st') := get_items st in (inr l, st')) ;;
  let view := ShopView_init items new_page in
  embed <- of_option IndexError (nth_error (embeds (message i)) 0) ;;
  fs <- of_option IndexError
          (set_field_value 1
             (Py.str (new_page + 1) ++ "/" ++ Py.str (total_pages view))
             (fields embed)) ;;
  ret (UpdateMessage (with_fields fs embed) view).

(* ------------------------------------------------------------------ *)
(** ** The web server *)

Section Gateway.

(** The interaction envelope and the client's [process_request], which
    verifies the signature and routes to a handler; both belong to the
    libraries the bot is built on. *)
Variable Json : Type.
Variable process_request : Json -> string -> string -> M unit.

Record Request : Type := mkRequest {
  json_body : option Json;          (* [None]: the body is not JSON *)
  signature_header : option string; (* X-Signature-Ed25519 *)
  timestamp_header : option string  (* X-Signature-Timestamp *)
}.

Definition request_json (r : Request) : M Json :=
  of_option JSONDecodeError (json_body r).

(** Python's [not h] on the result of [headers.get]. *)
Definition falsy (h : option string) : bool :=
  match h with
  | Some s => negb (nonempty s)
  | None => true
  end.

Definition processing_err : string := "Error processing request: ".

(** The status of the [web.Response], or the exception that leaves the
    handler. *)
Definition handle_interactions (request : Request) : M Z :=
  data <- request_json request ;;
  let signature := signature_header request in
  let timestamp := timestamp_header request in
  if falsy signature || falsy timestamp then ret 401
  else
    match signature, timestamp with
    | Some sg, Some ts =>
        try_except (process_request data sg ts ;;; ret 200)
                   (fun e st => (inr 500, print processing_err e st))
    | _, _ => ret 401
    end.

End Gateway.

Arguments mkRequest {Json}.
Arguments json_body {Json}.
Arguments signature_header {Json}.
Arguments timestamp_header {Json}.

(* ------------------------------------------------------------------ *)
(** ** Reference descriptions

    What the helpers are compared with: the item a row of the Items sheet
    stands for and the rows [get_items] does not skip; the item list in the
    words "skipping rows with fewer than 3 populated columns"; and what it
    means for a text to show a number with thousands separators. *)

Module Spec.

(** A row has three columns when its list of cells has three entries or
    more; a cell counts whether or not anything is written in it. *)
Definition has_three_columns (row : list string) : bool :=
  (3 <=? List.length row)%nat.

Definition image_of (row : list string) : option string :=
  match nth_error row 3 with
  | Some (String _ _ as s) => Some s
  | _ => None
  end.

Definition description_of (row : list string) : string :=
  match nth_error row 4 with
  | Some (String _ _ as s) => s
  | _ => no_description
  end.

(** The item a row stands for; [None] when the row is malformed: its
    price or its role id is not an integer. *)
Definition item_of (row : list string) : option ShopItem :=
  match Py.int (nth 1 row EmptyString), Py.int (nth 2 row EmptyString) with
  | Some p, Some r =>
      Some (mkItem (nth 0 row EmptyString) p r (image_of row)
                   (description_of row))
  | _, _ => None
  end.

(** The rows that are not skipped, in sheet order: the rows below the
    header, padded as [get_all_values] returns them, that have three
    columns. *)
Definition item_rows (g : Sheet.grid) : Sheet.grid :=
  filter has_three_columns (List.tl (Sheet.fill_gaps g)).

(** The number of populated columns of a row: its cells that are not
    empty. *)
Definition populated (row : list string) : nat :=
  List.length (filter nonempty row).

(** "Skipping rows with fewer than 3 populated columns": the rows below
    the header that are left. *)
Definition populated_rows (g : Sheet.grid) : Sheet.grid :=
  filter (fun row => (3 <=? populated row)%nat) (List.tl g).

Fixpoint all_items (rows : Sheet.grid) : option (list ShopItem) :=
  match rows with
  | [] => Some []
  | row :: rest =>
      match item_of row, all_items rest with
      | Some it, Some its => Some (it :: its)
      | _, _ => None
      end
  end.

(** The item list as those words describe it: one item per row that is
    left, or the empty list when one of them is malformed. *)
Definition populated_items (g : Sheet.grid) : list ShopItem :=
  match all_items (populated_rows g) with
  | Some its => its
  | None => []
  end.

(** [shown] is the decimal text of [z] with thousands separators: an
    optional minus sign, then the digits of [str(z)] cut into groups that
    are joined by commas, every group of three digits except the first,
    which has one to three. *)
Definition thousands (z : Z) (shown : string) : Prop :=
  exists sign first rest,
    shown = sign ++ String.concat "," (first :: rest)
    /\ Py.str z = sign ++ String.concat "" (first :: rest)
    /\ (sign = "" \/ sign = "-")
    /\ Py.all_chars Py.is_digit (String.concat "" (first :: rest)) = true
    /\ (1 <= String.length first <= 3)%nat
    /\ Forall (fun g => String.length g = 3%nat) rest.

End Spec.

(* ------------------------------------------------------------------ *)
(** ** Sample data *)

Module Demo.

Definition currency_header : list string := ["user_id"; "balance"].

Definition items_header : list string :=
  ["name"; "price"; "role_id"; "image_filename"; "description"].

Definition catalog : Sheet.grid :=
  [ items_header;
    ["VIP"; "60"; "111"; "vip.png"; "Front of the queue"];
    ["Bronze"; "10"; "222"];
    ["Gold"; "1_000"; "333"; ""; ""] ].

(** A catalogue with a row that has only a name and a price. *)
Definition catalog_draft : Sheet.grid :=
  [ items_header;
    ["VIP"; "60"; "111"; "vip.png"; "Front of the queue"];
    ["draft"; "5"] ].

(** A healthy backend with the given account rows. *)
Definition backend (accounts : Sheet.grid) : Backend :=
  mkBackend (currency_header :: accounts) catalog [] [].

(** The same backend with a schedule of failures. *)
Definition flaky (accounts : Sheet.grid) (f : list bool) : Backend :=
  mkBackend (currency_header :: accounts) catalog f [].

Definition vip : ShopItem :=
  mkItem "VIP" 60 111 (Some "vip.png") "Front of the queue".

Definition item_n (n : Z) : ShopItem :=
  mkItem ("Role " ++ Py.str n) (10 * n) (1000 + n) None no_description.

Definition seven_items : list ShopItem := map item_n [1; 2; 3; 4; 5; 6; 7].

Definition user (id : Z) : Interaction :=
  mkInteraction id "https://cdn.example/avatar.png" (mkMessage []).

(** A catalogue of seven well-formed rows, which [get_items] reads as
    [seven_items]. *)
Definition catalog7 : Sheet.grid :=
  [ items_header;
    ["Role 1"; "10"; "1001"]; ["Role 2"; "20"; "1002"];
    ["Role 3"; "30"; "1003"]; ["Role 4"; "40"; "1004"];
    ["Role 5"; "50"; "1005"]; ["Role 6"; "60"; "1006"];
    ["Role 7"; "70"; "1007"] ].

Definition backend7 : Backend :=
  mkBackend [currency_header; ["42"; "100"]] catalog7 [] [].

(** The embed the shop command sends, showing page [shown] of [total]. *)
Definition shop_embed (shown total : string) : Embed :=
  mkEmbed "🛒 Role Shop" "Browse and purchase roles with your currency!"
          3447003 None None
          [ mkField "Your Balance" "**100 coins**" true;
            mkField "Page" (shown ++ "/" ++ total) true ].

(** A click by user 42 on a component of the shop message. *)
Definition click (shown total : string) : Interaction :=
  mkInteraction 42 "https://cdn.example/avatar.png"
                (mkMessage [shop_embed shown total]).

(** A client that accepts every request, and one whose verification
    rejects every request. *)
Definition accept (_ : unit) (_ _ : string) : M unit := ret tt.

Definition reject (_ : unit) (_ _ : string) : M unit :=
  raise (HandlerError "invalid request signature").

End Demo.

(* ------------------------------------------------------------------ *)
(** ** Repeated interactions *)

(** The backend after the same purchase button was pressed [n] times by the
    same user, one press after the other. *)
Definition press (self : BuyButton) (i : Interaction) (n : nat)
  (st : Backend) : Backend :=
  Nat.iter n (fun s => snd (BuyButton_callback self i s)) st.

(* ================================================================== *)
(** * Properties *)

(** ** Sanity checks of the Python primitives *)

Example py_int_ex1 : Py.int " -1_000 " = Some (-1000). Proof. reflexivity. Qed.
Example py_int_ex2 : Py.int "12a" = None. Proof. reflexivity. Qed.
Example py_int_ex3 : Py.int "" = None. Proof. reflexivity. Qed.
Example py_int_ex4 : Py.int "1__0" = None. Proof. reflexivity. Qed.
Example py_str_ex1 : Py.str (-40) = "-40". Proof. reflexivity. Qed.
Example py_str_ex2 : Py.str 0 = "0". Proof. reflexivity. Qed.
Example py_split_ex : Py.split "_" "next_page_2" = ["next"; "page"; "2"].
Proof. reflexivity. Qed.
Example py_slice_ex1 : Py.slice [1;2;3;4;5;6;7] (-6) (-3) = [2;3;4].
Proof. reflexivity. Qed.
Example py_slice_ex2 : Py.slice [1;2;3;4;5;6;7] 6 9 = [7].
Proof. reflexivity. Qed.
Example py_fmt_ex1 : Py.format_comma 1234567 = "1,234,567".
Proof. reflexivity. Qed.
Example py_fmt_ex2 : Py.format_comma (-123456) = "-123,456".
Proof. reflexivity. Qed.
Example py_fmt_ex3 : Py.format_comma 999 = "999". Proof. reflexivity. Qed.

(** ** Python's [int] reads back what [str] prints *)

Section IntStr.

Import Py.

Lemma all_chars_impl (p q : ascii -> bool) s :
  (forall c, p c = true -> q c = true) ->
  all_chars p s = true -> all_chars q s = true.
Proof.
  intros Hpq; induction s as [|c r IH]; simpl; auto.
  rewrite !andb_true_iff; intros [Hc Hr]; auto.
Qed.

Lemma all_chars_app p s t :
  all_chars p (s ++ t) = all_chars p s && all_chars p t.
Proof.
  induction s as [|c r IH]; simpl; auto.
  now rewrite IH, andb_assoc.
Qed.

Lemma uint_chars d : all_chars is_digit (NilEmpty.string_of_uint d) = true.
Proof. induction d; simpl; auto. Qed.

Lemma str_chars z : all_chars is_int_char (str z) = true.
Proof.
  assert (H : forall d, all_chars is_int_char (NilEmpty.string_of_uint d) = true).
  { intros d. apply all_chars_impl with (p := is_digit); [|apply uint_chars].
    intros c Hc; unfold is_int_char; now rewrite Hc. }
  unfold str, NilZero.string_of_int, NilZero.string_of_uint.
  destruct (Z.to_int z) as [d|d]; destruct d; simpl; auto;
    try apply H.
Qed.

Lemma int_char_not_space c : is_int_char c = true -> is_space c = false.
Proof.
  destruct c as [[] [] [] [] [] [] [] []]; vm_compute; congruence.
Qed.

Lemma rstrip_id s :
  all_chars (fun c => negb (is_space c)) s = true -> rstrip s = s.
Proof.
  induction s as [|c r IH]; simpl; auto.
  rewrite andb_true_iff, negb_true_iff; intros [Hc Hr].
  rewrite (IH Hr), Hc. now destruct r.
Qed.

Lemma strip_id s :
  all_chars (fun c => negb (is_space c)) s = true -> strip s = s.
Proof.
  intros H. unfold strip.
  replace (lstrip s) with s.
  - now apply rstrip_id.
  - destruct s as [|c r]; simpl in *; auto.
    apply andb_true_iff in H as [Hc _].
    apply negb_true_iff in Hc. now rewrite Hc.
Qed.

Lemma strip_str z : strip (str z) = str z.
Proof.
  apply strip_id. apply all_chars_impl with (p := is_int_char).
  - intros c Hc. now rewrite (int_char_not_space c Hc).
  - apply str_chars.
Qed.

(** Evaluates [digit_of] on a character literal. *)
Ltac eval_digit :=
  match goal with
  | |- context [digit_of ?c] =>
      let v := eval vm_compute in (digit_of c) in
      change (digit_of c) with v; cbv beta iota
  end.

Lemma int_digits_uint d acc :
  int_digits acc (NilEmpty.string_of_uint d)
  = Some (acc * Z.of_N (10 ^ DecimalPos.Unsigned.usize d)
          + Z.of_N (DecimalPos.Unsigned.of_lu (Decimal.rev d))).
Proof.
  revert acc.
  induction d as [|d IH|d IH|d IH|d IH|d IH|d IH|d IH|d IH|d IH|d IH];
    intros acc;
    [ simpl; f_equal; lia | .. ];
    change (NilEmpty.string_of_uint ?x) with (NilEmpty.string_of_uint x);
    cbn [NilEmpty.string_of_uint int_digits]; eval_digit;
    unfold Decimal.rev; cbn [Decimal.revapp];
    rewrite DecimalPos.Unsigned.of_lu_revapp; fold (Decimal.rev d);
    cbn [DecimalPos.Unsigned.usize];
    rewrite IH; f_equal;
    rewrite N.pow_succ_r', !N2Z.inj_add, !N2Z.inj_mul;
    change (DecimalPos.Unsigned.of_lu _) with (DecimalPos.Unsigned.of_lu (Decimal.rev d)) at 1;
    cbn [DecimalPos.Unsigned.of_lu]; rewrite ?N2Z.inj_add, ?N2Z.inj_mul; simpl Z.of_N; lia.
Qed.

Lemma int_unsigned_uint d :
  d <> Decimal.Nil ->
  int_unsigned (NilEmpty.string_of_uint d) = Some (Z.of_N (Pos.of_uint d)).
Proof.
  intros Hd. rewrite DecimalPos.Unsigned.of_uint_alt.
  destruct d as [|d|d|d|d|d|d|d|d|d|d]; [congruence | ..];
    unfold Decimal.rev; cbn [Decimal.revapp];
    rewrite DecimalPos.Unsigned.of_lu_revapp; fold (Decimal.rev d);
    cbn [NilEmpty.string_of_uint int_unsigned]; eval_digit;
    rewrite int_digits_uint;
    f_equal; rewrite !N2Z.inj_add, !N2Z.inj_mul;
    cbn [DecimalPos.Unsigned.of_lu]; rewrite ?N2Z.inj_add, ?N2Z.inj_mul;
    simpl Z.of_N; lia.
Qed.

Lemma int_unsigned_pos p :
  int_unsigned (NilEmpty.string_of_uint (Pos.to_uint p)) = Some (Zpos p).
Proof.
  rewrite int_unsigned_uint by apply DecimalPos.Unsigned.to_uint_nonnil.
  now rewrite DecimalPos.Unsigned.of_to.
Qed.

(** [int(str(z)) == z]. *)
Lemma int_str z : int (str z) = Some z.
Proof.
  unfold int. rewrite strip_str.
  unfold str, NilZero.string_of_int, NilZero.string_of_uint.
  destruct z as [|p|p]; [reflexivity | ..]; cbn [Z.to_int].
  - pose proof (DecimalPos.Unsigned.to_uint_nonnil p) as Hn.
    pose proof (int_unsigned_pos p) as Hp.
    destruct (Pos.to_uint p); [congruence | ..]; exact Hp.
  - pose proof (DecimalPos.Unsigned.to_uint_nonnil p) as Hn.
    pose proof (int_unsigned_pos p) as Hp.
    destruct (Pos.to_uint p); [congruence | ..];
      cbv beta iota; rewrite Hp; reflexivity.
Qed.

End IntStr.

(** ** Worksheet facts *)

Section SheetFacts.

Import Sheet.

Lemma nth_set_nth_same {A} (d : A) n v l : nth n (set_nth d n v l) d = v.
Proof.
  revert l; induction n as [|n IH]; intros [|x t]; simpl; auto.
Qed.

Lemma nth_set_nth_other {A} (d : A) n m v l :
  m <> n -> nth m (set_nth d n v l) d = nth m l d.
Proof.
  revert m l; induction n as [|n IH]; intros [|m] [|x t] Hmn; simpl;
    try congruence; auto.
  - now destruct m.
  - rewrite IH by congruence. now destruct m.
Qed.

Lemma length_set_nth {A} (d : A) n v l :
  (n < List.length l)%nat -> List.length (set_nth d n v l) = List.length l.
Proof.
  revert l; induction n as [|n IH]; intros [|x t]; simpl; try lia.
  intros H. rewrite IH; lia.
Qed.

Lemma set_nth_length {A} (d : A) v l :
  set_nth d (List.length l) v l = (l ++ [v])%list.
Proof. induction l as [|x t IH]; simpl; congruence. Qed.

Lemma firstn_set_nth {A} (d : A) n v l :
  (n <= List.length l)%nat -> firstn n (set_nth d n v l) = firstn n l.
Proof.
  revert l; induction n as [|n IH]; intros [|x t]; simpl; try lia; auto.
  intros H. f_equal. apply IH. lia.
Qed.

(** Padding adds no row. *)
Lemma length_fill_gaps g : List.length (fill_gaps g) = List.length g.
Proof. apply length_map. Qed.

Lemma tl_fill_gaps_length g :
  List.length (List.tl (fill_gaps g)) = List.length (List.tl g).
Proof. unfold fill_gaps. now destruct g; simpl; rewrite ?length_map. Qed.

Lemma width_ge g row : In row g -> (List.length row <= width g)%nat.
Proof.
  induction g as [|x g IH]; simpl; [contradiction|].
  intros [->|Hin]; [lia|]. specialize (IH Hin). lia.
Qed.

(** After padding every row is as wide as the sheet. *)
Lemma fill_gaps_row_length g row :
  In row (fill_gaps g) -> List.length row = width g.
Proof.
  unfold fill_gaps. intros Hin. apply in_map_iff in Hin as (x & <- & Hx).
  unfold rightpad. rewrite length_app, repeat_length.
  pose proof (width_ge g x Hx). lia.
Qed.

(** Writing a cell and reading it back. *)
Lemma value_update_same g r c v :
  (1 <= r)%nat -> (1 <= c)%nat -> value (update g r c v) r c = v.
Proof.
  destruct r as [|r]; [lia|]. destruct c as [|c]; [lia|]. intros _ _.
  unfold value, update. now rewrite !nth_set_nth_same.
Qed.

(** Writing a cell leaves every other cell as it was. *)
Lemma value_update_other g r c v r' c' :
  (r', c') <> (r, c) -> value (update g r c v) r' c' = value g r' c'.
Proof.
  intros Hne. destruct r' as [|r']; [reflexivity|].
  destruct c' as [|c']; [reflexivity|].
  destruct r as [|r]; [reflexivity|]. destruct c as [|c]; [reflexivity|].
  unfold value, update.
  destruct (Nat.eq_dec r' r) as [->|Hr].
  - rewrite nth_set_nth_same. apply nth_set_nth_other. congruence.
  - now rewrite nth_set_nth_other.
Qed.

Lemma length_update g r c v :
  (r <= List.length g)%nat -> List.length (update g r c v) = List.length g.
Proof.
  destruct r as [|r]; [reflexivity|]. destruct c as [|c]; [reflexivity|].
  intros H. apply length_set_nth. lia.
Qed.

(** The two writes of [get_currency] below the last row make one new row. *)
Lemma update_new_row g u v :
  update (update g (S (List.length g)) 1 u) (S (List.length g)) 2 v
  = (g ++ [[u; v]])%list.
Proof.
  unfold update.
  rewrite (nth_overflow g) by lia. cbn [set_nth].
  rewrite set_nth_length, app_nth2, Nat.sub_diag by lia. cbn [nth set_nth].
  replace (List.length g) with (List.length g + 0)%nat at 1 by lia.
  revert u v. induction g as [|row g IH]; intros u v; simpl; auto.
  now rewrite IH.
Qed.

Lemma find_in_row_bounds q row c0 c :
  find_in_row q row c0 = Some c ->
  (c0 <= c < c0 + List.length row)%nat /\ nth (c - c0) row EmptyString = q.
Proof.
  revert c0; induction row as [|x t IH]; intros c0; simpl; [discriminate|].
  destruct (String.eqb_spec x q) as [->|Hne].
  - intros [= <-]. rewrite Nat.sub_diag. split; [lia|reflexivity].
  - intros H. apply IH in H as [Hb Hv]. split; [lia|].
    replace (c - c0)%nat with (S (c - S c0)) by lia. exact Hv.
Qed.

Lemma find_from_bounds q g r0 r c :
  find_from q g r0 = Some (r, c) ->
  (r0 <= r < r0 + List.length g)%nat /\ (1 <= c)%nat
  /\ nth (c - 1) (nth (r - r0) g []) EmptyString = q.
Proof.
  revert r0; induction g as [|row g IH]; intros r0; simpl; [discriminate|].
  destruct (find_in_row q row 1) as [c1|] eqn:Hrow.
  - intros [= <- <-]. apply find_in_row_bounds in Hrow as [Hb Hv].
    rewrite Nat.sub_diag. repeat split; try lia. exact Hv.
  - intros H. apply IH in H as (Hb & Hc & Hv). repeat split; try lia.
    replace (r - r0)%nat with (S (r - S r0)) by lia. exact Hv.
Qed.

(** A cell that [find] returns lies inside the grid and holds the query. *)
Lemma find_bounds q g r c :
  find q g = Some (r, c) ->
  (1 <= r <= List.length g)%nat /\ (1 <= c)%nat /\ value g r c = q.
Proof.
  intros H. apply find_from_bounds in H as (Hr & Hc & Hv).
  repeat split; try lia.
  unfold value. destruct r as [|r]; [lia|]. destruct c as [|c]; [lia|].
  now rewrite !Nat.sub_succ, !Nat.sub_0_r in Hv.
Qed.

End SheetFacts.

Section FindFacts.

Import Sheet.

Lemma find_from_app q (g g' : grid) r0 :
  find_from q (g ++ g')%list r0
  = match find_from q g r0 with
    | Some x => Some x
    | None => find_from q g' (r0 + List.length g)
    end.
Proof.
  revert r0; induction g as [|row g IH]; intros r0; simpl.
  - now rewrite Nat.add_0_r.
  - destruct (find_in_row q row 1); auto.
    rewrite IH. now rewrite Nat.add_succ_comm.
Qed.

(** After the lazy creation of a row, [find] returns that row. *)
Lemma find_new_row q (g : grid) v :
  find q g = None ->
  find q (g ++ [[q; v]])%list = Some (S (List.length g), 1%nat).
Proof.
  unfold find. intros H. rewrite find_from_app, H. simpl.
  now rewrite String.eqb_refl.
Qed.

Lemma find_in_row_set_right q row c0 c n v :
  find_in_row q row c0 = Some c -> (c - c0 < n)%nat ->
  find_in_row q (set_nth EmptyString n v row) c0 = Some c.
Proof.
  revert c0 n; induction row as [|x t IH]; intros c0 n; simpl;
    [discriminate|].
  destruct (String.eqb x q) eqn:Hx.
  - intros [= <-] Hn. destruct n as [|n]; [lia|]. simpl. now rewrite Hx.
  - intros H Hn. pose proof (find_in_row_bounds _ _ _ _ H) as [Hb _].
    destruct n as [|n]; [lia|]. simpl. rewrite Hx. apply IH; auto. lia.
Qed.

Lemma find_from_row q g r0 r c :
  find_from q g r0 = Some (r, c) ->
  find_in_row q (nth (r - r0) g []) 1 = Some c.
Proof.
  revert r0; induction g as [|row g IH]; intros r0; simpl; [discriminate|].
  destruct (find_in_row q row 1) as [c1|] eqn:Hrow.
  - intros [= <- <-]. now rewrite Nat.sub_diag.
  - intros H. pose proof (find_from_bounds _ _ _ _ _ H) as (Hb & _).
    replace (r - r0)%nat with (S (r - S r0)) by lia. now apply IH.
Qed.

Lemma find_from_set_row q g r0 r c row' :
  find_from q g r0 = Some (r, c) ->
  find_in_row q row' 1 = Some c ->
  find_from q (set_nth [] (r - r0) row' g) r0 = Some (r, c).
Proof.
  revert r0; induction g as [|row g IH]; intros r0; simpl; [discriminate|].
  destruct (find_in_row q row 1) as [c1|] eqn:Hrow.
  - intros [= <- <-] Hc. rewrite Nat.sub_diag. simpl. now rewrite Hc.
  - intros H Hc. pose proof (find_from_bounds _ _ _ _ _ H) as (Hb & _).
    replace (r - r0)%nat with (S (r - S r0)) by lia. simpl.
    rewrite Hrow. now apply IH.
Qed.

(** Overwriting a cell to the right of the one [find] returns does not
    change what [find] returns. *)
Lemma find_update_right q g r c c2 v :
  find q g = Some (r, c) -> (c < c2)%nat ->
  find q (update g r c2 v) = Some (r, c).
Proof.
  intros H Hc. pose proof (find_bounds _ _ _ _ H) as (Hr & Hc1 & _).
  unfold find in *. unfold update.
  destruct r as [|r]; [lia|]. destruct c2 as [|c2]; [lia|].
  pose proof (find_from_row _ _ _ _ _ H) as Hrow.
  replace (S r - 1)%nat with r in Hrow by lia.
  pose proof (find_from_set_row q g 1 (S r) c
                (set_nth EmptyString c2 v (nth r g []))) as Hset.
  replace (S r - 1)%nat with r in Hset by lia.
  apply Hset; auto.
  apply find_in_row_set_right; auto. lia.
Qed.

Lemma user_row_from_found uid g r0 r :
  user_row_from uid g r0 = Some r -> find_from uid g r0 <> None.
Proof.
  revert r0; induction g as [|row g IH]; intros r0; simpl; [discriminate|].
  destruct row as [|v t].
  - apply IH.
  - simpl. destruct (String.eqb v uid); [discriminate|].
    destruct (find_in_row uid t 2); [discriminate|]. apply IH.
Qed.

(** A user who has a row is found by [find] (in that row or before). *)
Lemma user_row_found uid g r :
  user_row uid g = Some r -> find uid g <> None.
Proof. apply user_row_from_found. Qed.

End FindFacts.

(** ** The ledger helpers on a healthy backend *)

Ltac unfold_helpers :=
  unfold get_currency, get_currency_body, update_currency,
    update_currency_body, get_items, get_items_body, ws_find, ws_cell_value,
    ws_get_all_values, ws_update_cell, of_option, of_sum, api_call, bind,
    ret, raise, print, with_grid, with_faults, grid_of.

Ltac healthy st H :=
  destruct st as [? ? ? ?]; cbn [faults currency_sheet items_sheet log] in *;
  subst; unfold_helpers;
  cbn [faults currency_sheet items_sheet log fst snd].

Ltac step :=
  cbn -[Sheet.value Sheet.find Sheet.update Sheet.fill_gaps Py.int Py.str
        List.length];
  rewrite ?length_fill_gaps.

Section HelperFacts.

Variable user_id : string.

Lemma get_currency_found st r c b :
  faults st = [] ->
  Sheet.find user_id (currency_sheet st) = Some (r, c) ->
  Py.int (Sheet.value (currency_sheet st) r 2) = Some b ->
  get_currency user_id st = (b, st).
Proof.
  intros Hf Hfind Hint. healthy st Hf. rewrite Hfind; step. now rewrite Hint.
Qed.

Lemma get_currency_bad_cell st r c :
  faults st = [] ->
  Sheet.find user_id (currency_sheet st) = Some (r, c) ->
  Py.int (Sheet.value (currency_sheet st) r 2) = None ->
  get_currency user_id st = (0, print get_currency_err ValueError st).
Proof.
  intros Hf Hfind Hint. healthy st Hf. rewrite Hfind; step. now rewrite Hint.
Qed.

Lemma get_currency_missing st :
  faults st = [] ->
  Sheet.find user_id (currency_sheet st) = None ->
  get_currency user_id st
  = (0, with_grid Currency (currency_sheet st ++ [[user_id; "0"]])%list st).
Proof.
  intros Hf Hfind. healthy st Hf. rewrite Hfind; step.
  now rewrite update_new_row.
Qed.

Lemma get_currency_raises st e st' :
  get_currency_body user_id st = (inl e, st') ->
  get_currency user_id st = (0, print get_currency_err e st').
Proof. intros H. unfold get_currency. now rewrite H. Qed.

Lemma update_currency_found st r c amount :
  faults st = [] ->
  Sheet.find user_id (currency_sheet st) = Some (r, c) ->
  update_currency user_id amount st
  = (true,
     with_grid Currency
       (Sheet.update (currency_sheet st) r 2 (Py.str amount)) st).
Proof.
  intros Hf Hfind. healthy st Hf. rewrite Hfind; step. reflexivity.
Qed.

Lemma update_currency_missing st amount :
  faults st = [] ->
  Sheet.find user_id (currency_sheet st) = None ->
  update_currency user_id amount st = (false, st).
Proof.
  intros Hf Hfind. healthy st Hf. rewrite Hfind; step. reflexivity.
Qed.

Lemma update_currency_raises st amount e st' :
  update_currency_body user_id amount st = (inl e, st') ->
  update_currency user_id amount st
  = (false, print update_currency_err e st').
Proof. intros H. unfold update_currency. now rewrite H. Qed.

End HelperFacts.

(** ** [get_currency] under any schedule of backend failures *)

Ltac fault_cases st :=
  destruct st as [cur itm flt lg];
  destruct flt as [|[] [|[] [|[] [|[] ?]]]].

Ltac run_helpers :=
  unfold_helpers; cbn [faults currency_sheet items_sheet log fst snd].

Ltac pick_extra x :=
  exists x; split; [rewrite ?app_nil_r; reflexivity|];
  split; [auto|intros; congruence].

Lemma update_first_cell g u :
  Sheet.update g (S (List.length g)) 1 u = (g ++ [[u]])%list.
Proof.
  unfold Sheet.update. rewrite (nth_overflow g) by lia. cbn [Sheet.set_nth].
  apply set_nth_length.
Qed.

(** What one call of [get_currency] can do to the backend. *)
Lemma get_currency_effect (user_id : string) (st : Backend) :
  items_sheet (snd (get_currency user_id st)) = items_sheet st
  /\ (exists extra,
        currency_sheet (snd (get_currency user_id st))
        = (currency_sheet st ++ extra)%list
        /\ (extra = [] \/ extra = [[user_id]] \/ extra = [[user_id; "0"]])
        /\ (Sheet.find user_id (currency_sheet st) <> None -> extra = []))
  /\ (log (snd (get_currency user_id st)) = log st
      \/ fst (get_currency user_id st) = 0
         /\ exists e, log (snd (get_currency user_id st))
                      = (log st ++ [(get_currency_err, e)])%list).
Proof.
  destruct (Sheet.find user_id (currency_sheet st)) as [[r c]|] eqn:Hfind.
  - fault_cases st; cbn [currency_sheet] in Hfind; run_helpers;
      rewrite ?Hfind; step;
      try destruct (Py.int (Sheet.value cur r 2)); step;
      (split; [reflexivity|]); (split; [pick_extra (@nil (list string))|]);
      eauto.
  - fault_cases st; cbn [currency_sheet] in Hfind; run_helpers;
      rewrite ?Hfind; step; rewrite ?update_new_row, ?update_first_cell;
      (split; [reflexivity|]); (split; [|eauto]);
      first [ pick_extra (@nil (list string))
            | pick_extra [[user_id]]
            | pick_extra [[user_id; "0"]] ].
Qed.

(** ** The lookup by [find] *)

(** C2: the row that [get_currency] reads is the row of the first cell
    equal to the user id in any column, which need not be the user's row.
    On this sheet user 7 has the row [("7", "5")], the third row, yet
    [get_currency "7"] stops at user 42's balance cell, which reads "7", and
    returns user 42's balance, 7, instead of the stored 5. *)
Lemma get_currency_wrong_row :
  Sheet.user_row "7" (currency_sheet (Demo.backend [["42"; "7"]; ["7"; "5"]]))
  = Some 3%nat
  /\ Sheet.value (currency_sheet (Demo.backend [["42"; "7"]; ["7"; "5"]])) 3 2
     = "5"
  /\ Sheet.find "7" (currency_sheet (Demo.backend [["42"; "7"]; ["7"; "5"]]))
     = Some (2%nat, 2%nat)
  /\ get_currency "7" (Demo.backend [["42"; "7"]; ["7"; "5"]])
     = (7, Demo.backend [["42"; "7"]; ["7"; "5"]]).
Proof. repeat split. Qed.

(** C3: for the same reason [update_currency] can write into another
    user's row.  On this sheet user 7 has no row, yet [update_currency "7"
    40] returns [True] and overwrites user 42's balance, where a missing row
    should give [False] and no write. *)
Lemma update_currency_wrong_row :
  Sheet.user_row "7" (currency_sheet (Demo.backend [["42"; "7"]])) = None
  /\ update_currency "7" 40 (Demo.backend [["42"; "7"]])
     = (true, Demo.backend [["42"; "40"]]).
Proof. repeat split. Qed.

(** ** [get_items] *)

Section ItemFacts.

Lemma item_of_row_spec row :
  item_of_row row
  = match Spec.item_of row with
    | Some it => inr it
    | None => inl ValueError
    end.
Proof.
  unfold item_of_row, Spec.item_of.
  destruct (Py.int (nth 1 row EmptyString)) as [p|]; [|reflexivity].
  destruct (Py.int (nth 2 row EmptyString)) as [r|]; [|reflexivity].
  do 2 f_equal.
  - unfold Spec.image_of.
    destruct row as [|a [|b [|c [|d t]]]]; try reflexivity.
    now destruct d.
  - unfold Spec.description_of.
    destruct row as [|a [|b [|c [|d [|e t]]]]]; try reflexivity.
    now destruct e.
Qed.

Lemma collect_items_ok rows : forall acc its,
  Forall2 (fun row it => Spec.item_of row = Some it)
          (filter Spec.has_three_columns rows) its ->
  collect_items rows acc = inr (acc ++ its)%list.
Proof.
  induction rows as [|row rows IH]; intros acc its H;
    cbn [collect_items filter] in *.
  - inversion H; subst. now rewrite app_nil_r.
  - change (3 <=? List.length row)%nat with (Spec.has_three_columns row).
    destruct (Spec.has_three_columns row).
    + inversion H as [|? it ? its' Hit Hrest]; subst.
      rewrite item_of_row_spec, Hit, (IH _ _ Hrest).
      rewrite <- app_assoc. reflexivity.
    + now apply IH.
Qed.

Lemma collect_items_bad rows : forall acc row,
  In row (filter Spec.has_three_columns rows) ->
  Spec.item_of row = None ->
  exists e, collect_items rows acc = inl e.
Proof.
  induction rows as [|row0 rows IH]; intros acc row Hin Hbad;
    cbn [collect_items filter] in *.
  - contradiction.
  - change (3 <=? List.length row0)%nat with (Spec.has_three_columns row0).
    destruct (Spec.has_three_columns row0).
    + rewrite item_of_row_spec.
      destruct Hin as [->|Hin].
      * rewrite Hbad. eauto.
      * destruct (Spec.item_of row0); eauto.
    + eauto.
Qed.

Lemma collect_items_error rows : forall acc e,
  collect_items rows acc = inl e -> e = ValueError.
Proof.
  induction rows as [|row rows IH]; intros acc e; cbn [collect_items];
    [discriminate|].
  destruct (3 <=? List.length row)%nat; eauto.
  rewrite item_of_row_spec.
  destruct (Spec.item_of row); eauto. congruence.
Qed.

End ItemFacts.

(** C4, as the program behaves: a row with fewer than three populated
    columns is not skipped.  [get_all_values] pads the row [("draft", "5")]
    to the width of the sheet, so it has five cells; [get_items] reads its
    empty role id, fails and returns the empty list, where skipping the row
    would have left the VIP item. *)
Lemma get_items_keeps_short_row :
  get_items (mkBackend [] Demo.catalog_draft [] [])
  = ([], mkBackend [] Demo.catalog_draft [] [(get_items_err, ValueError)])
  /\ Spec.populated ["draft"; "5"] = 2%nat
  /\ Spec.populated_items Demo.catalog_draft = [Demo.vip].
Proof. repeat split. Qed.

(** C4, amended: on a healthy backend [get_items] takes the rows below the
    header as [get_all_values] returns them, every row padded with empty
    cells to the width of the sheet, and skips those with fewer than three
    cells: all of them in a sheet narrower than three columns, none
    otherwise.  When each row that is not skipped parses, the result is one
    item per such row, in sheet order, with price and role id read as
    integers, an absent or empty image as [None] and an absent or empty
    description as the default text; the backend is left as it was.  When
    one of them is malformed (an empty price or role id included) the whole
    call returns the empty list and prints one line.  The same happens when
    the backend call fails. *)
Theorem get_items_spec (st : Backend) :
  (forall its,
      faults st = [] ->
      Forall2 (fun row it => Spec.item_of row = Some it)
              (Spec.item_rows (items_sheet st)) its ->
      get_items st = (its, st))
  /\ (forall row,
      faults st = [] ->
      In row (Spec.item_rows (items_sheet st)) ->
      Spec.item_of row = None ->
      get_items st = ([], print get_items_err ValueError st))
  /\ (forall f,
      faults st = true :: f ->
      get_items st = ([], print get_items_err APIError (with_faults f st)))
  /\ ((3 <= Sheet.width (items_sheet st))%nat ->
      Spec.item_rows (items_sheet st)
      = List.tl (Sheet.fill_gaps (items_sheet st)))
  /\ ((Sheet.width (items_sheet st) < 3)%nat ->
      Spec.item_rows (items_sheet st) = []).
Proof.
  split; [|split; [|split; [|split]]].
  - intros its Hf Hrows. healthy st Hf. step.
    unfold Spec.item_rows in Hrows.
    now rewrite (collect_items_ok _ [] its Hrows).
  - intros row Hf Hin Hbad. healthy st Hf. step.
    destruct (collect_items_bad _ [] row Hin Hbad) as [e He].
    rewrite He. now rewrite (collect_items_error _ _ _ He).
  - intros f Hf. destruct st as [cur itm flt lg]. simpl in Hf. subst flt.
    reflexivity.
  - intros Hw. unfold Spec.item_rows.
    apply forallb_filter_id. apply forallb_forall. intros row Hin.
    unfold Spec.has_three_columns. apply Nat.leb_le.
    rewrite (fill_gaps_row_length (items_sheet st) row); [exact Hw|].
    destruct (Sheet.fill_gaps (items_sheet st)); [contradiction|].
    now right.
  - intros Hw. unfold Spec.item_rows.
    assert (Hall : forall row,
               In row (List.tl (Sheet.fill_gaps (items_sheet st))) ->
               Spec.has_three_columns row = false).
    { intros row Hin. unfold Spec.has_three_columns. apply Nat.leb_gt.
      rewrite (fill_gaps_row_length (items_sheet st) row); [exact Hw|].
      destruct (Sheet.fill_gaps (items_sheet st)); [contradiction|].
      now right. }
    induction (List.tl (Sheet.fill_gaps (items_sheet st))) as [|x t IH];
      [reflexivity|].
    simpl. rewrite (Hall x) by now left. apply IH.
    intros row Hin. apply Hall. now right.
Qed.

Lemma get_items_spec_witness :
  get_items (Demo.backend [])
  = ([ Demo.vip;
       mkItem "Bronze" 10 222 None no_description;
       mkItem "Gold" 1000 333 None no_description ],
     Demo.backend [])
  /\ fst (get_items
            (mkBackend [] [Demo.items_header; ["VIP"; "60"; "111"];
                           ["Oops"; "10"; ""]] [] []))
     = [].
Proof.
  split.
  - apply (proj1 (get_items_spec (Demo.backend []))); [reflexivity|].
    repeat constructor.
  - rewrite (proj1 (proj2 (get_items_spec
               (mkBackend [] [Demo.items_header; ["VIP"; "60"; "111"];
                              ["Oops"; "10"; ""]] [] [])))
               ["Oops"; "10"; ""; ""; ""] eq_refl).
    + reflexivity.
    + simpl. auto.
    + reflexivity.
Defined.

(** ** The shop view *)

Section ViewFacts.

Lemma clamp_index_cases n i :
  0 <= n ->
  let c := Py.clamp_index n i in
  (i < - n /\ c = 0) \/ (- n <= i < 0 /\ c = i + n)
  \/ (0 <= i <= n /\ c = i) \/ (n < i /\ c = n).
Proof.
  intros Hn. unfold Py.clamp_index.
  destruct (Z.ltb_spec i 0);
    repeat match goal with
           | |- context [?a <? ?b] => destruct (Z.ltb_spec a b)
           end; lia.
Qed.

Lemma slice_firstn_skipn {A} (l : list A) (s e : Z) :
  0 <= s <= e ->
  Py.slice l s e = firstn (Z.to_nat (e - s)) (skipn (Z.to_nat s) l).
Proof.
  intros Hse. unfold Py.slice.
  set (n := Z.of_nat (List.length l)).
  assert (Hn : 0 <= n) by (unfold n; lia).
  destruct (clamp_index_cases n s Hn) as [[? ->]|[[? ->]|[[? ->]|[? ->]]]];
    try lia;
    destruct (clamp_index_cases n e Hn) as [[? ->]|[[? ->]|[[? ->]|[? ->]]]];
    try lia; try reflexivity.
  - rewrite !firstn_all2; auto; rewrite length_skipn; unfold n in *; lia.
  - rewrite !skipn_all2 by (unfold n in *; lia). now rewrite !firstn_nil.
Qed.

Lemma slice_past_end {A} (l : list A) (s e : Z) :
  Z.of_nat (List.length l) <= s -> Py.slice l s e = [].
Proof.
  intros Hs. unfold Py.slice.
  set (n := Z.of_nat (List.length l)) in *.
  assert (Hn : 0 <= n) by (unfold n; lia).
  rewrite skipn_all2; [apply firstn_nil|].
  destruct (clamp_index_cases n s Hn) as [[? ->]|[[? ->]|[[? ->]|[? ->]]]];
    unfold n in *; lia.
Qed.

Lemma slice_length {A} (l : list A) (s : Z) :
  (List.length (Py.slice l s (s + 3)) <= 3)%nat.
Proof.
  unfold Py.slice.
  set (n := Z.of_nat (List.length l)).
  assert (Hn : 0 <= n) by (unfold n; lia).
  rewrite length_firstn.
  destruct (clamp_index_cases n s Hn) as [[? ->]|[[? ->]|[[? ->]|[? ->]]]];
    destruct (clamp_index_cases n (s + 3) Hn)
      as [[? ->]|[[? ->]|[[? ->]|[? ->]]]]; lia.
Qed.

Lemma fold_add_items (l : list ShopItem) : forall v,
  fold_left (fun v item => add_item (ItemButton (BuyButton_init item)) v) l v
  = mkShopView (timeout v)
      (children v ++ map (fun it => ItemButton (BuyButton_init it)) l)%list
      (items v) (page v) (items_per_page v) (total_pages v).
Proof.
  induction l as [|it l IH]; intros v; simpl.
  - rewrite app_nil_r. now destruct v.
  - rewrite IH. unfold add_item; simpl. now rewrite <- app_assoc.
Qed.

(** The view after [update_buttons], written out. *)
Lemma update_buttons_eq (v : ShopView) :
  update_buttons v
  = mkShopView (timeout v)
      (map (fun it => ItemButton (BuyButton_init it))
           (Py.slice (items v) (page v * items_per_page v)
                     (page v * items_per_page v + items_per_page v))
       ++ [Row (mkView [prev_button (page v);
                        next_button (page v) (total_pages v)])])%list
      (items v) (page v) (items_per_page v) (total_pages v).
Proof.
  unfold update_buttons. rewrite fold_add_items. reflexivity.
Qed.

Lemma ShopView_init_eq (l : list ShopItem) (p : Z) :
  ShopView_init l p
  = mkShopView 180
      (map (fun it => ItemButton (BuyButton_init it))
           (Py.slice l (p * 3) (p * 3 + 3))
       ++ [Row (mkView
                  [prev_button p;
                   next_button p ((Z.of_nat (List.length l) + 3 - 1) / 3)])])%list
      l p 3 ((Z.of_nat (List.length l) + 3 - 1) / 3).
Proof. unfold ShopView_init. now rewrite update_buttons_eq. Qed.

Lemma purchase_controls_eq (l : list ShopItem) (p : Z) :
  purchase_controls (ShopView_init l p)
  = map BuyButton_init (Py.slice l (p * 3) (p * 3 + 3)).
Proof.
  rewrite ShopView_init_eq. unfold purchase_controls. cbn [children].
  rewrite flat_map_app. cbn [flat_map]. rewrite app_nil_r.
  induction (Py.slice l (p * 3) (p * 3 + 3)) as [|x t IH]; simpl; congruence.
Qed.

Lemma nav_controls_eq (l : list ShopItem) (p : Z) :
  nav_controls (ShopView_init l p)
  = [prev_button p; next_button p (total_pages (ShopView_init l p))].
Proof.
  rewrite ShopView_init_eq. unfold nav_controls. cbn [children total_pages].
  rewrite flat_map_app. cbn [flat_map view_children]. rewrite app_nil_r.
  induction (Py.slice l (p * 3) (p * 3 + 3)) as [|x t IH]; simpl; auto.
Qed.

Lemma total_pages_ceil (l : list ShopItem) (p : Z) :
  3 * (total_pages (ShopView_init l p) - 1) < Z.of_nat (List.length l)
  /\ Z.of_nat (List.length l) <= 3 * total_pages (ShopView_init l p).
Proof.
  rewrite ShopView_init_eq. cbn [total_pages].
  set (n := Z.of_nat (List.length l)).
  pose proof (Z.div_mod (n + 3 - 1) 3 ltac:(lia)) as Hdm.
  pose proof (Z.mod_pos_bound (n + 3 - 1) 3 ltac:(lia)) as Hm.
  lia.
Qed.

End ViewFacts.

(** C5: the view built for a page [p] with [0 <= p < total_pages].  The
    number of pages is the ceiling of [len(items) / 3]; the purchase
    controls are one per item of [items[3p : 3p+3]], in order; the
    navigation row holds a "previous" button tagged [prev_page_p], disabled
    exactly when [p = 0], and a "next" button tagged [next_page_p], disabled
    exactly when [p >= total_pages - 1]. *)
Theorem shop_view_page (l : list ShopItem) (p : Z) :
  0 <= p < total_pages (ShopView_init l p) ->
  (3 * (total_pages (ShopView_init l p) - 1) < Z.of_nat (List.length l)
   /\ Z.of_nat (List.length l) <= 3 * total_pages (ShopView_init l p))
  /\ purchase_controls (ShopView_init l p)
     = map BuyButton_init (firstn 3 (skipn (3 * Z.to_nat p) l))
  /\ exists prev next,
       nav_controls (ShopView_init l p) = [prev; next]
       /\ custom_id prev = "prev_page_" ++ Py.str p
       /\ (disabled prev = true <-> p = 0)
       /\ custom_id next = "next_page_" ++ Py.str p
       /\ (disabled next = true <-> p >= total_pages (ShopView_init l p) - 1).
Proof.
  intros Hp. split; [apply total_pages_ceil|]. split.
  - rewrite purchase_controls_eq, slice_firstn_skipn by lia.
    do 3 f_equal; lia.
  - rewrite nav_controls_eq.
    exists (prev_button p),
           (next_button p (total_pages (ShopView_init l p))).
    cbn [prev_button next_button custom_id disabled].
    repeat split; auto.
    + apply Z.eqb_eq.
    + apply Z.eqb_eq.
    + intros H. apply Z.leb_le in H. lia.
    + intros H. apply Z.leb_le. lia.
Qed.

Lemma shop_view_page_witness :
  total_pages (ShopView_init Demo.seven_items 0) = 3
  /\ purchase_controls (ShopView_init Demo.seven_items 0)
     = map BuyButton_init (map Demo.item_n [1; 2; 3])
  /\ map disabled (nav_controls (ShopView_init Demo.seven_items 0))
     = [true; false]
  /\ purchase_controls (ShopView_init Demo.seven_items 2)
     = map BuyButton_init (map Demo.item_n [7])
  /\ map disabled (nav_controls (ShopView_init Demo.seven_items 2))
     = [false; true].
Proof.
  assert (H0 : 0 <= 0 < total_pages (ShopView_init Demo.seven_items 0))
    by (vm_compute; split; congruence).
  assert (H2 : 0 <= 2 < total_pages (ShopView_init Demo.seven_items 2))
    by (vm_compute; split; congruence).
  destruct (shop_view_page Demo.seven_items 0 H0) as (_ & Hc0 & _).
  destruct (shop_view_page Demo.seven_items 2 H2) as (_ & Hc2 & _).
  split; [reflexivity|]. split; [rewrite Hc0; reflexivity|].
  split; [reflexivity|]. split; [rewrite Hc2; reflexivity|reflexivity].
Defined.

(** C10: [ShopView(items, p)] is defined for every integer [p]: it always
    consists of at most three purchase controls followed by the navigation
    row.  When [p >= total_pages] the slice [items[3p : 3p+3]] is empty, the
    view holds no purchase control, and the "next" button is disabled. *)
Theorem shop_view_any_page (l : list ShopItem) (p : Z) :
  (exists ctrls prev next,
      children (ShopView_init l p)
      = (map ItemButton ctrls ++ [Row (mkView [prev; next])])%list
      /\ (List.length ctrls <= 3)%nat)
  /\ (total_pages (ShopView_init l p) <= p ->
      Py.slice l (p * 3) (p * 3 + 3) = []
      /\ purchase_controls (ShopView_init l p) = []
      /\ children (ShopView_init l p)
         = [Row (mkView [prev_button p;
                         mkButton gray next_label
                                  ("next_page_" ++ Py.str p) true])]).
Proof.
  split.
  - exists (map BuyButton_init (Py.slice l (p * 3) (p * 3 + 3))),
           (prev_button p),
           (next_button p (total_pages (ShopView_init l p))).
    split.
    + rewrite ShopView_init_eq at 1. cbn [children].
      rewrite map_map. rewrite ShopView_init_eq. reflexivity.
    + rewrite length_map. apply slice_length.
  - intros Hp. pose proof (total_pages_ceil l p) as [_ Hceil].
    assert (Hs : Py.slice l (p * 3) (p * 3 + 3) = [])
      by (apply slice_past_end; lia).
    split; [exact Hs|]. split.
    + now rewrite purchase_controls_eq, Hs.
    + revert Hp. rewrite ShopView_init_eq. cbn [children total_pages].
      intros Hp. rewrite Hs. cbn [map app]. unfold next_button.
      replace (_ <=? p) with true; [reflexivity|].
      symmetry. apply Z.leb_le. lia.
Qed.

Lemma shop_view_any_page_witness :
  purchase_controls (ShopView_init Demo.seven_items 5) = []
  /\ map disabled (nav_controls (ShopView_init Demo.seven_items 5))
     = [false; true].
Proof.
  assert (H : total_pages (ShopView_init Demo.seven_items 5) <= 5)
    by (vm_compute; congruence).
  destruct (proj2 (shop_view_any_page Demo.seven_items 5) H)
    as (_ & Hc & Hch).
  split; [exact Hc|]. unfold nav_controls. rewrite Hch. reflexivity.
Defined.

(** C9: building the shop view is a function of [(items, page)] alone.
    [update_buttons] discards whatever controls the view held before, so
    the result does not depend on earlier renderings; rendering twice is the
    same as rendering once; and equal inputs give equal views: the same
    purchase controls with the same tags and the same navigation buttons
    with the same disabled flags. *)
Theorem shop_view_deterministic :
  (forall l p old,
      update_buttons
        (mkShopView 180 old l p 3 ((Z.of_nat (List.length l) + 3 - 1) / 3))
      = ShopView_init l p)
  /\ (forall v w,
      items v = items w -> page v = page w ->
      items_per_page v = items_per_page w ->
      total_pages v = total_pages w ->
      children (update_buttons v) = children (update_buttons w))
  /\ (forall v, update_buttons (update_buttons v) = update_buttons v)
  /\ (forall l1 l2 p1 p2,
      l1 = l2 -> p1 = p2 ->
      ShopView_init l1 p1 = ShopView_init l2 p2
      /\ map (fun b => custom_id (buy_button b))
             (purchase_controls (ShopView_init l1 p1))
         = map (fun b => custom_id (buy_button b))
               (purchase_controls (ShopView_init l2 p2))
      /\ map disabled (nav_controls (ShopView_init l1 p1))
         = map disabled (nav_controls (ShopView_init l2 p2))).
Proof.
  split; [|split; [|split]].
  - intros l p old. now rewrite update_buttons_eq, ShopView_init_eq.
  - intros v w Hi Hp Hn Ht. rewrite !update_buttons_eq. cbn [children].
    now rewrite Hi, Hp, Hn, Ht.
  - intros v. rewrite (update_buttons_eq (update_buttons v)).
    rewrite !update_buttons_eq. reflexivity.
  - intros l1 l2 p1 p2 -> ->. auto.
Qed.

Lemma shop_view_deterministic_witness :
  update_buttons
    (mkShopView 180 [Row (mkView []); ItemButton (BuyButton_init Demo.vip)]
                Demo.seven_items 1 3 3)
  = ShopView_init Demo.seven_items 1.
Proof.
  exact (proj1 shop_view_deterministic Demo.seven_items 1
           [Row (mkView []); ItemButton (BuyButton_init Demo.vip)]).
Defined.

(** ** The purchase handler *)

Section PurchaseFacts.

Variable user_id : string.

Lemma get_currency_cases st :
  faults st = [] ->
  (exists r c b,
      Sheet.find user_id (currency_sheet st) = Some (r, c)
      /\ Py.int (Sheet.value (currency_sheet st) r 2) = Some b
      /\ get_currency user_id st = (b, st))
  \/ (exists r c,
      Sheet.find user_id (currency_sheet st) = Some (r, c)
      /\ Py.int (Sheet.value (currency_sheet st) r 2) = None
      /\ get_currency user_id st = (0, print get_currency_err ValueError st))
  \/ (Sheet.find user_id (currency_sheet st) = None
      /\ get_currency user_id st
         = (0, with_grid Currency
                 (currency_sheet st ++ [[user_id; "0"]])%list st)).
Proof.
  intros Hf.
  destruct (Sheet.find user_id (currency_sheet st)) as [[r c]|] eqn:Hfind.
  - destruct (Py.int (Sheet.value (currency_sheet st) r 2)) as [b|] eqn:Hint.
    + left. exists r, c, b. repeat split; auto.
      eapply get_currency_found; eauto.
    + right; left. exists r, c. repeat split; auto.
      eapply get_currency_bad_cell; eauto.
  - right; right. split; auto. now apply get_currency_missing.
Qed.

(** Once [get_currency] has run on a healthy backend, the backend is still
    healthy, the user has a row, and asking again gives the same answer
    without further change to the sheets. *)
Lemma get_currency_settled st b st1 :
  faults st = [] ->
  get_currency user_id st = (b, st1) ->
  faults st1 = []
  /\ items_sheet st1 = items_sheet st
  /\ (exists r c, Sheet.find user_id (currency_sheet st1) = Some (r, c)
                  /\ (Sheet.find user_id (currency_sheet st) = None ->
                      c = 1%nat)
                  /\ (forall x y, Sheet.find user_id (currency_sheet st)
                                  = Some (x, y) -> (x, y) = (r, c)))
  /\ fst (get_currency user_id st1) = b
  /\ (forall r c, (r <= List.length (currency_sheet st))%nat ->
        Sheet.value (currency_sheet st1) r c
        = Sheet.value (currency_sheet st) r c).
Proof.
  intros Hf Hget.
  destruct (get_currency_cases st Hf)
    as [(r & c & b' & Hfind & Hint & Heq)
       |[(r & c & Hfind & Hint & Heq)|(Hfind & Heq)]];
    rewrite Heq in Hget; injection Hget as <- <-.
  - repeat split; auto.
    + exists r, c. repeat split; auto; congruence.
    + now rewrite Heq.
  - unfold print in *.
    set (st1 := mkBackend (currency_sheet st) (items_sheet st) (faults st)
                          (log st ++ [(get_currency_err, ValueError)])).
    assert (Hf' : faults st1 = []) by exact Hf.
    repeat split; auto.
    + exists r, c. repeat split; auto; congruence.
    + now rewrite (get_currency_bad_cell user_id st1 r c Hf' Hfind Hint).
  - unfold with_grid in *.
    set (g := currency_sheet st) in *.
    set (st1 := mkBackend (g ++ [[user_id; "0"]])%list (items_sheet st)
                          (faults st) (log st)).
    assert (Hnew : Sheet.find user_id (currency_sheet st1)
                   = Some (S (List.length g), 1%nat))
      by (now apply find_new_row).
    assert (Hf' : faults st1 = []) by exact Hf.
    assert (Hval : Py.int (Sheet.value (currency_sheet st1)
                             (S (List.length g)) 2) = Some 0).
    { cbn [st1 currency_sheet]. unfold Sheet.value.
      rewrite app_nth2, Nat.sub_diag by lia. reflexivity. }
    repeat split; auto.
    + exists (S (List.length g)), 1%nat.
      repeat split; auto. intros x y Hxy. congruence.
    + now rewrite (get_currency_found user_id st1 _ _ 0 Hf' Hnew Hval).
    + intros r c Hr. cbn [st1 currency_sheet].
      unfold Sheet.value. destruct r as [|r]; auto. destruct c as [|c]; auto.
      rewrite app_nth1 by lia. reflexivity.
Qed.

End PurchaseFacts.

(** C1, as the program behaves: the handler does not look at what
    [update_currency] returns.  Here the backend fails on the fourth call,
    the write of the new balance: the reply is still the success message,
    and the balance stays 100 where the claim has 40 written. *)
Lemma purchase_success_without_debit :
  BuyButton_callback (BuyButton_init Demo.vip) (Demo.user 42)
                     (Demo.flaky [["42"; "100"]] [false; false; false; true])
  = (Send (Some "You have successfully purchased the VIP role!")
          None None true,
     mkBackend [Demo.currency_header; ["42"; "100"]] Demo.catalog []
               [(update_currency_err, APIError)]).
Proof. reflexivity. Qed.

(** C1, amended: the purchase handler, where [b] is the balance
    [get_currency] returns and [st1] the backend it leaves.  If the price is
    at most [b], the handler calls [update_currency] with [b - price],
    whatever that returns, and replies ephemerally that the item's role was
    purchased, naming the item.  When no backend call fails and the first
    cell equal to the user id, if any, lies in the first column, that call
    overwrites exactly the balance cell of the user's row with
    [str(b - price)], and the balance read back afterwards is [b - price].
    If [b] is below the price, the reply is the ephemeral rejection and
    [update_currency] is not called: the backend is the one [get_currency]
    left, in which the Items sheet and every cell the Currency sheet had are
    unchanged; on a healthy backend the balance read back is still [b]. *)
Theorem purchase_spec (self : BuyButton) (i : Interaction)
  (st : Backend) (b : Z) (st1 : Backend) :
  get_currency (Py.str (author_id i)) st = (b, st1) ->
  (price (buy_item self) <= b ->
   BuyButton_callback self i st
   = (Send (Some (purchased (name (buy_item self)))) None None true,
      snd (update_currency (Py.str (author_id i))
             (b - price (buy_item self)) st1)))
  /\ (b < price (buy_item self) ->
      BuyButton_callback self i st
      = (Send (Some not_enough) None None true, st1)
      /\ items_sheet st1 = items_sheet st
      /\ (forall r c, (r <= List.length (currency_sheet st))%nat ->
            Sheet.value (currency_sheet st1) r c
            = Sheet.value (currency_sheet st) r c))
  /\ (faults st = [] ->
      (forall r c,
          Sheet.find (Py.str (author_id i)) (currency_sheet st) = Some (r, c) ->
          c = 1%nat) ->
      price (buy_item self) <= b ->
      exists r,
        Sheet.find (Py.str (author_id i)) (currency_sheet st1)
        = Some (r, 1%nat)
        /\ currency_sheet (snd (BuyButton_callback self i st))
           = Sheet.update (currency_sheet st1) r 2
               (Py.str (b - price (buy_item self)))
        /\ (forall r' c', (r', c') <> (r, 2%nat) ->
              Sheet.value (currency_sheet (snd (BuyButton_callback self i st)))
                          r' c'
              = Sheet.value (currency_sheet st1) r' c')
        /\ items_sheet (snd (BuyButton_callback self i st)) = items_sheet st
        /\ get_currency (Py.str (author_id i))
             (snd (BuyButton_callback self i st))
           = (b - price (buy_item self),
              snd (BuyButton_callback self i st)))
  /\ (faults st = [] ->
      b < price (buy_item self) ->
      fst (get_currency (Py.str (author_id i)) st1) = b).
Proof.
  intros Hget.
  set (uid := Py.str (author_id i)) in *.
  set (p := price (buy_item self)) in *.
  assert (Hpay : p <= b ->
            BuyButton_callback self i st
            = (Send (Some (purchased (name (buy_item self)))) None None true,
               snd (update_currency uid (b - p) st1))).
  { intros Hle. unfold BuyButton_callback. fold uid p. rewrite Hget.
    apply Z.leb_le in Hle. rewrite Hle.
    now destruct (update_currency uid (b - p) st1). }
  split; [exact Hpay|]. split; [|split].
  - intros Hlt.
    destruct (get_currency_effect uid st)
      as (Hitems & (extra & Hcur & _ & _) & _).
    rewrite Hget in Hitems, Hcur. cbn [snd] in Hitems, Hcur.
    split; [|split; [exact Hitems|]].
    + unfold BuyButton_callback. fold uid p. rewrite Hget.
      apply Z.leb_gt in Hlt. now rewrite Hlt.
    + intros r c Hr. rewrite Hcur. unfold Sheet.value.
      destruct r as [|r]; auto. destruct c as [|c]; auto.
      rewrite app_nth1 by lia. reflexivity.
  - intros Hf Hcol Hle.
    destruct (get_currency_settled _ _ _ _ Hf Hget)
      as (Hf1 & Hitems & (r & c & Hfind & Hnew & Hold) & _ & _).
    assert (Hc : c = 1%nat).
    { destruct (Sheet.find uid (currency_sheet st)) as [[x y]|] eqn:Hst.
      - specialize (Hold x y eq_refl). injection Hold as <- <-.
        now apply (Hcol x y).
      - now apply Hnew. }
    subst c. exists r.
    pose proof (find_bounds _ _ _ _ Hfind) as (Hr & _ & _).
    rewrite (Hpay Hle). cbn [snd].
    rewrite (update_currency_found uid st1 r 1 (b - p) Hf1 Hfind). cbn [snd].
    set (st2 := with_grid Currency
                  (Sheet.update (currency_sheet st1) r 2 (Py.str (b - p)))
                  st1).
    assert (Hg2 : currency_sheet st2
                  = Sheet.update (currency_sheet st1) r 2 (Py.str (b - p)))
      by (now destruct st1).
    assert (Hf2 : faults st2 = []) by (now destruct st1).
    split; [exact Hfind|]. split; [exact Hg2|]. split; [|split].
    + intros r' c' Hne. rewrite Hg2. now apply value_update_other.
    + rewrite <- Hitems. now destruct st1.
    + apply (get_currency_found uid st2 r 1 (b - p) Hf2).
      * rewrite Hg2. apply find_update_right; auto.
      * rewrite Hg2, value_update_same by lia. apply int_str.
  - intros Hf Hlt.
    now destruct (get_currency_settled _ _ _ _ Hf Hget)
      as (_ & _ & _ & Hagain & _).
Qed.

Lemma purchase_spec_witness :
  BuyButton_callback (BuyButton_init Demo.vip) (Demo.user 42)
                     (Demo.backend [["42"; "100"]])
  = (Send (Some "You have successfully purchased the VIP role!")
          None None true,
     Demo.backend [["42"; "40"]])
  /\ get_currency "42"
       (snd (BuyButton_callback (BuyButton_init Demo.vip) (Demo.user 42)
               (Demo.backend [["42"; "100"]])))
     = (40, Demo.backend [["42"; "40"]])
  /\ BuyButton_callback (BuyButton_init Demo.vip) (Demo.user 42)
                        (Demo.backend [["42"; "50"]])
     = (Send (Some "You do not have enough coins to purchase this role.")
             None None true,
        Demo.backend [["42"; "50"]]).
Proof.
  pose (rich := Demo.backend [["42"; "100"]]).
  pose (poor := Demo.backend [["42"; "50"]]).
  assert (Hle : price (buy_item (BuyButton_init Demo.vip)) <= 100)
    by (simpl; lia).
  assert (Hlt : 50 < price (buy_item (BuyButton_init Demo.vip)))
    by (simpl; lia).
  assert (Hcol : forall r c,
            Sheet.find (Py.str (author_id (Demo.user 42)))
                       (currency_sheet rich) = Some (r, c) -> c = 1%nat).
  { intros r c H. vm_compute in H. now injection H as <- <-. }
  destruct (purchase_spec (BuyButton_init Demo.vip) (Demo.user 42)
              rich 100 rich eq_refl) as (Hpay & _ & Hwrite & _).
  destruct (Hwrite eq_refl Hcol Hle) as (r & _ & _ & _ & _ & Hback).
  split; [exact (Hpay Hle)|]. split; [exact Hback|].
  exact (proj1 (proj1 (proj2 (purchase_spec (BuyButton_init Demo.vip)
                                (Demo.user 42) poor 50 poor eq_refl))
                  Hlt)).
Defined.

(** ** The balance command *)

Section FormatFacts.

Import Py.

Lemma filter_group3_fuel n : forall l,
  (List.length l <= n)%nat ->
  forallb not_comma l = true -> filter not_comma (group3 l) = l.
Proof.
  induction n as [|n IH]; intros l Hn Hl.
  - destruct l; [reflexivity|simpl in Hn; lia].
  - destruct l as [|a [|b [|c [|d r]]]]; simpl in *;
      repeat match goal with
             | H : _ && _ = true |- _ => apply andb_true_iff in H as [? ?]
             end;
      repeat match goal with
             | H : not_comma ?x = true |- _ => rewrite H
             end; try reflexivity.
    do 3 f_equal.
    change (filter not_comma (group3 (d :: r)) = d :: r).
    apply IH; simpl; [lia|].
    apply andb_true_iff; auto.
Qed.

Lemma all_chars_forallb p s :
  all_chars p s = forallb p (list_ascii_of_string s).
Proof. induction s as [|c r IH]; simpl; congruence. Qed.

Lemma forallb_rev {A} (p : A -> bool) l : forallb p (rev l) = forallb p l.
Proof.
  induction l as [|x t IH]; simpl; auto.
  rewrite forallb_app, IH. simpl. rewrite andb_true_r. apply andb_comm.
Qed.

Lemma filter_rev_comm {A} (p : A -> bool) l :
  filter p (rev l) = rev (filter p l).
Proof.
  induction l as [|x t IH]; simpl; auto.
  rewrite filter_app, IH. simpl. destruct (p x); simpl; auto.
  now rewrite app_nil_r.
Qed.

Lemma without_commas_commas s :
  all_chars not_comma s = true -> without_commas (commas s) = s.
Proof.
  intros Hs. unfold without_commas, commas.
  rewrite list_ascii_of_string_of_list_ascii.
  rewrite filter_rev_comm.
  rewrite (filter_group3_fuel (List.length (rev (list_ascii_of_string s)))).
  - rewrite rev_involutive. apply string_of_list_ascii_of_string.
  - lia.
  - rewrite forallb_rev, <- all_chars_forallb. exact Hs.
Qed.

Lemma digit_not_comma c : is_digit c = true -> not_comma c = true.
Proof.
  destruct c as [[] [] [] [] [] [] [] []]; vm_compute; congruence.
Qed.

(** Taking the separators out of [f"{z:,}"] gives [str(z)] back. *)
Lemma without_commas_format z : without_commas (format_comma z) = str z.
Proof.
  assert (Hd : forall d, all_chars not_comma (NilEmpty.string_of_uint d) = true).
  { intros d. apply all_chars_impl with (p := is_digit);
      [apply digit_not_comma|apply uint_chars]. }
  unfold format_comma, str, NilZero.string_of_int, NilZero.string_of_uint.
  destruct (Z.to_int z) as [d|d].
  - destruct d; try reflexivity;
      match goal with
      | |- context [NilEmpty.string_of_uint ?x] =>
          specialize (Hd x); cbn [NilEmpty.string_of_uint] in *;
          now rewrite without_commas_commas
      end.
  - assert (Hm : forall t, all_chars not_comma t = true ->
                           without_commas (String "-" (commas t))
                           = String "-" t).
    { intros t Ht. pose proof (without_commas_commas t Ht) as Hw.
      unfold without_commas in *. cbn [list_ascii_of_string filter].
      change (not_comma "-") with true. cbv iota.
      cbn [string_of_list_ascii]. now rewrite Hw. }
    destruct d; cbv beta iota;
      match goal with
      | |- context [String "-" (commas ?t)] => apply Hm
      end; try reflexivity;
      match goal with
      | |- all_chars not_comma (NilEmpty.string_of_uint ?x) = true => apply Hd
      end.
Qed.

End FormatFacts.

Section GroupFacts.

Import Py.

Lemma group3_shape n : forall l : list ascii,
  (List.length l <= n)%nat -> l <> [] ->
  exists gs last,
    group3 l = (List.concat (map (fun g => g ++ [","%char]) gs) ++ last)%list
    /\ l = (List.concat gs ++ last)%list
    /\ Forall (fun g => List.length g = 3%nat) gs
    /\ (1 <= List.length last <= 3)%nat.
Proof.
  induction n as [|n IH]; intros l Hn Hl.
  - destruct l; [congruence|simpl in Hn; lia].
  - destruct l as [|a [|b [|c [|d r]]]]; [congruence| | | |].
    + exists [], [a]. simpl. repeat split; auto; lia.
    + exists [], [a; b]. simpl. repeat split; auto; lia.
    + exists [], [a; b; c]. simpl. repeat split; auto; lia.
    + destruct (IH (d :: r)) as (gs & last & Hg & Hl' & Hall & Hlast);
        [simpl in *; lia|discriminate|].
      exists ([a; b; c] :: gs), last.
      change (group3 (a :: b :: c :: d :: r))
        with (a :: b :: c :: ","%char :: group3 (d :: r)).
      split; [rewrite Hg; reflexivity|].
      split; [cbn [List.concat app]; rewrite <- Hl'; reflexivity|].
      split; [constructor; auto|exact Hlast].
Qed.

Lemma rev_groups_sep (gs : list (list ascii)) :
  rev (List.concat (map (fun g => g ++ [","%char]) gs))%list
  = List.concat (map (fun g => ","%char :: rev g) (rev gs)).
Proof.
  induction gs as [|g gs IH]; [reflexivity|].
  cbn [map List.concat rev]. rewrite rev_app_distr, IH, map_app, concat_app.
  cbn [map List.concat]. rewrite rev_app_distr, app_nil_r. reflexivity.
Qed.

Lemma rev_groups (gs : list (list ascii)) :
  rev (List.concat gs) = List.concat (map (@rev ascii) (rev gs)).
Proof.
  induction gs as [|g gs IH]; [reflexivity|].
  cbn [List.concat rev]. rewrite rev_app_distr, IH, map_app, concat_app.
  cbn [map List.concat]. now rewrite app_nil_r.
Qed.

Lemma string_of_app (a b : list ascii) :
  string_of_list_ascii (a ++ b)
  = string_of_list_ascii a ++ string_of_list_ascii b.
Proof. induction a as [|x a IH]; simpl; congruence. Qed.

Lemma string_length_of (a : list ascii) :
  String.length (string_of_list_ascii a) = List.length a.
Proof. induction a as [|x a IH]; simpl; congruence. Qed.

Lemma append_empty_r (s : string) : s ++ "" = s.
Proof. induction s as [|c s IH]; simpl; congruence. Qed.

Lemma append_assoc (a b c : string) : (a ++ b) ++ c = a ++ (b ++ c).
Proof. induction a as [|x a IH]; simpl; congruence. Qed.

(** Joining with a separator, written as a plain concatenation. *)
Lemma concat_sep (sep x : string) (xs : list string) :
  String.concat sep (x :: xs)
  = x ++ String.concat "" (map (fun g => sep ++ g) xs).
Proof.
  revert x; induction xs as [|y ys IH]; intros x.
  - simpl. now rewrite append_empty_r.
  - change (String.concat sep (x :: y :: ys))
      with (x ++ sep ++ String.concat sep (y :: ys)).
    rewrite IH. cbn [map].
    destruct ys as [|z zs]; simpl; now rewrite ?append_assoc, ?append_empty_r.
Qed.

Lemma concat_plain (gs : list (list ascii)) (f : list ascii -> list ascii) :
  string_of_list_ascii (List.concat (map f gs))
  = String.concat "" (map (fun g => string_of_list_ascii (f g)) gs).
Proof.
  induction gs as [|g gs IH]; [reflexivity|].
  cbn [map List.concat]. rewrite string_of_app, IH.
  destruct gs as [|h hs]; [now rewrite append_empty_r|reflexivity].
Qed.

(** The text [commas] makes of a string of digits. *)
Lemma commas_groups (digits : string) :
  digits <> "" ->
  exists first rest,
    commas digits = String.concat "," (first :: rest)
    /\ digits = String.concat "" (first :: rest)
    /\ (1 <= String.length first <= 3)%nat
    /\ Forall (fun g => String.length g = 3%nat) rest.
Proof.
  intros Hne.
  assert (Hrev : rev (list_ascii_of_string digits) <> []).
  { destruct digits as [|c r]; [congruence|]. simpl.
    intros H. apply (f_equal (@List.length _)) in H.
    rewrite length_app in H. simpl in H. lia. }
  destruct (group3_shape _ _ (le_n _) Hrev)
    as (gs & last & Hg & Hl & Hall & Hlast).
  exists (string_of_list_ascii (rev last)),
         (map (fun g => string_of_list_ascii (rev g)) (rev gs)).
  split; [|split; [|split]].
  - unfold commas. rewrite Hg, rev_app_distr, rev_groups_sep, string_of_app.
    rewrite concat_sep, map_map. f_equal.
    rewrite (concat_plain (rev gs) (fun g => ","%char :: rev g)).
    reflexivity.
  - rewrite <- (string_of_list_ascii_of_string digits) at 1.
    rewrite <- (rev_involutive (list_ascii_of_string digits)), Hl.
    rewrite rev_app_distr, rev_groups, string_of_app.
    rewrite concat_sep, map_map. f_equal.
    rewrite (concat_plain (rev gs) (@rev ascii)).
    reflexivity.
  - rewrite string_length_of, length_rev. exact Hlast.
  - apply Forall_forall. intros g Hin.
    apply in_map_iff in Hin as (x & <- & Hx).
    rewrite string_length_of, length_rev.
    rewrite Forall_forall in Hall. apply Hall. now apply in_rev.
Qed.

Lemma str_cases z :
  exists digits,
    digits <> ""
    /\ all_chars is_digit digits = true
    /\ (str z = digits \/ str z = String "-" digits).
Proof.
  assert (Hd : forall d, d <> Decimal.Nil ->
            NilZero.string_of_uint d = NilEmpty.string_of_uint d
            /\ NilEmpty.string_of_uint d <> "").
  { intros d Hd. destruct d; try congruence; split; try reflexivity;
      discriminate. }
  unfold str, NilZero.string_of_int. destruct z as [|p|p]; cbn [Z.to_int].
  - exists "0". repeat split; auto. discriminate.
  - destruct (Hd _ (DecimalPos.Unsigned.to_uint_nonnil p)) as [-> Hne].
    eexists. repeat split; [exact Hne|apply uint_chars|now left].
  - destruct (Hd _ (DecimalPos.Unsigned.to_uint_nonnil p)) as [-> Hne].
    eexists. repeat split; [exact Hne|apply uint_chars|now right].
Qed.

Lemma format_comma_unsigned z digits :
  str z = digits -> all_chars is_digit digits = true ->
  format_comma z = commas digits.
Proof.
  intros Hs Hd. unfold format_comma. rewrite Hs.
  destruct digits as [|c r]; [reflexivity|]. cbn [all_chars] in Hd.
  apply andb_true_iff in Hd as [Hc _].
  destruct c as [[] [] [] [] [] [] [] []]; try reflexivity.
  vm_compute in Hc. discriminate Hc.
Qed.

Lemma format_comma_signed z digits :
  str z = String "-" digits ->
  format_comma z = String "-" (commas digits).
Proof. intros Hs. unfold format_comma. now rewrite Hs. Qed.

(** [f"{z:,}"] shows [z] with thousands separators. *)
Lemma format_comma_thousands z : Spec.thousands z (format_comma z).
Proof.
  destruct (str_cases z) as (digits & Hne & Hdig & [Hs|Hs]);
    destruct (commas_groups digits Hne)
      as (first & rest & Hshown & Hdigits & Hfirst & Hrest);
    unfold Spec.thousands.
  - rewrite (format_comma_unsigned z digits Hs Hdig), Hs.
    exists "", first, rest. rewrite <- Hdigits. repeat split; auto; lia.
  - rewrite (format_comma_signed z digits Hs), Hs.
    exists "-", first, rest. rewrite <- Hdigits, <- Hshown.
    repeat split; auto; lia.
Qed.

End GroupFacts.

(** C7, as the program behaves: [/balance] is not read-only for a user who
    has no row yet.  On this backend user 7 has no row, and handling the
    command appends the row [("7", "0")] to the Currency sheet. *)
Lemma balance_creates_row :
  currency_sheet (snd (balance (Demo.user 7) (Demo.backend [["42"; "100"]])))
  = [Demo.currency_header; ["42"; "100"]; ["7"; "0"]]
  /\ snd (balance (Demo.user 7) (Demo.backend [["42"; "100"]]))
     <> Demo.backend [["42"; "100"]].
Proof.
  split; [reflexivity|]. vm_compute. intros H. discriminate H.
Qed.

(** C7, amended: whatever the backend does, [/balance] answers with one
    ephemeral embed that shows the balance [get_currency] returned with
    thousands separators (the digits in groups of three joined by commas,
    the first group of one to three digits), the user's avatar as thumbnail
    and the shop hint as footer.  The Items sheet and the existing rows of
    the Currency sheet are never changed.  When some cell already equals the
    user id, in particular when the user has a row, the Currency sheet is
    unchanged.  Otherwise at most one row is appended: the row
    [(user_id, "0")] when no backend call fails, and possibly the half
    written row [(user_id)] or nothing when one fails. *)
Theorem balance_spec (i : Interaction) (st : Backend) :
  (exists shown,
      fst (balance i st)
      = Send None
          (Some (mkEmbed "💰 Your Balance"
                   ("You currently have **" ++ shown ++ " coins**")
                   16766720 (Some (author_avatar_url i)) (Some balance_hint)
                   []))
          None true
      /\ Spec.thousands (fst (get_currency (Py.str (author_id i)) st)) shown)
  /\ items_sheet (snd (balance i st)) = items_sheet st
  /\ (exists extra,
        currency_sheet (snd (balance i st))
        = (currency_sheet st ++ extra)%list
        /\ (extra = [] \/ extra = [[Py.str (author_id i)]]
            \/ extra = [[Py.str (author_id i); "0"]])
        /\ (Sheet.find (Py.str (author_id i)) (currency_sheet st) <> None ->
            extra = [])
        /\ (faults st = [] ->
            Sheet.find (Py.str (author_id i)) (currency_sheet st) = None ->
            extra = [[Py.str (author_id i); "0"]]))
  /\ (forall r,
        Sheet.user_row (Py.str (author_id i)) (currency_sheet st) = Some r ->
        currency_sheet (snd (balance i st)) = currency_sheet st).
Proof.
  set (uid := Py.str (author_id i)).
  assert (Hbal : balance i st
    = (Send None
         (Some (mkEmbed "💰 Your Balance"
                  ("You currently have **"
                     ++ Py.format_comma (fst (get_currency uid st))
                     ++ " coins**")
                  16766720 (Some (author_avatar_url i)) (Some balance_hint)
                  []))
         None true,
       snd (get_currency uid st))).
  { unfold balance. fold uid.
    destruct (get_currency uid st) as [b st1]. reflexivity. }
  rewrite Hbal. cbn [fst snd].
  destruct (get_currency_effect uid st)
    as (Hitems & (extra & Hcur & Hshape & Hknown) & _).
  split; [|split; [exact Hitems|split]].
  - eexists. split; [reflexivity|]. apply format_comma_thousands.
  - exists extra. repeat split; auto.
    intros Hf Hnone.
    rewrite (get_currency_missing uid st Hf Hnone) in Hcur.
    destruct st as [cur itm flt lg]. cbn in Hcur.
    now apply app_inv_head in Hcur.
  - intros r Hrow. rewrite Hcur, Hknown; [apply app_nil_r|].
    now apply (user_row_found uid _ r).
Qed.

Lemma balance_spec_witness :
  fst (balance (mkInteraction 42 "https://cdn.example/a.png" (mkMessage []))
               (Demo.backend [["42"; "1234567"]]))
  = Send None
      (Some (mkEmbed "💰 Your Balance"
               "You currently have **1,234,567 coins**"
               16766720 (Some "https://cdn.example/a.png")
               (Some "Use /shop to browse available items") []))
      None true
  /\ currency_sheet
       (snd (balance (mkInteraction 42 "https://cdn.example/a.png"
                                    (mkMessage []))
                     (Demo.backend [["42"; "1234567"]])))
     = [Demo.currency_header; ["42"; "1234567"]].
Proof.
  pose (i := mkInteraction 42 "https://cdn.example/a.png" (mkMessage [])).
  pose (st := Demo.backend [["42"; "1234567"]]).
  destruct (balance_spec i st) as (_ & _ & _ & Hrow).
  split; [reflexivity|]. exact (Hrow 2%nat eq_refl).
Defined.

(** ** The page-turn handler *)

Section TagFacts.

Import Py.

Lemma split_no_sep sep s :
  all_chars (fun c => negb (Ascii.eqb c sep)) s = true -> split sep s = [s].
Proof.
  induction s as [|c r IH]; simpl; auto.
  rewrite andb_true_iff, negb_true_iff. intros [Hc Hr].
  now rewrite Hc, (IH Hr).
Qed.

Lemma split_after_sep sep pre s :
  exists w ws,
    split sep (pre ++ String sep s) = w :: ws
    /\ ws <> []
    /\ List.last ws EmptyString = List.last (split sep s) EmptyString.
Proof.
  assert (Hne : forall t, split sep t <> []).
  { intros [|c r]; simpl; [discriminate|].
    destruct (Ascii.eqb c sep); [discriminate|].
    destruct (split sep r); discriminate. }
  induction pre as [|c pre IH]; simpl.
  - rewrite Ascii.eqb_refl. eauto.
  - destruct IH as (w & ws & Heq & Hws & Hlast). rewrite Heq.
    destruct (Ascii.eqb c sep).
    + exists EmptyString, (w :: ws). repeat split; [discriminate|].
      rewrite <- Hlast. destruct ws; [congruence|reflexivity].
    + eauto.
Qed.

(** The last field of a tag [prefix_<text>] is [text] when [text] has no
    underscore. *)
Lemma last_field_tag pre s :
  all_chars (fun c => negb (Ascii.eqb c "_")) s = true ->
  last_field (split "_" (pre ++ String "_" s)) = s.
Proof.
  intros Hs. unfold last_field.
  destruct (split_after_sep "_" pre s) as (w & ws & Heq & Hws & Hlast).
  rewrite Heq. rewrite split_no_sep in Hlast by assumption.
  destruct ws; [congruence|]. exact Hlast.
Qed.

Lemma int_char_props c :
  is_int_char c = true ->
  negb (Ascii.eqb c "_") = true /\ negb (Ascii.eqb c "n") = true.
Proof.
  destruct c as [[] [] [] [] [] [] [] []]; vm_compute; split; congruence.
Qed.

Lemma page_of_tag pre p :
  int (last_field (split "_" (pre ++ String "_" (str p)))) = Some p.
Proof.
  rewrite last_field_tag; [apply int_str|].
  apply all_chars_impl with (p := is_int_char); [|apply str_chars].
  intros c Hc. now apply int_char_props.
Qed.

Lemma contains_without_n s :
  all_chars (fun c => negb (Ascii.eqb c "n")) s = true ->
  contains "next" s = false.
Proof.
  induction s as [|c r IH]; [reflexivity|].
  cbn [all_chars]. rewrite andb_true_iff, negb_true_iff.
  intros [Hc Hr]. cbn [contains]. rewrite (IH Hr), orb_false_r.
  cbn [prefix]. destruct (ascii_dec "n" c) as [<-|_]; [|reflexivity].
  discriminate Hc.
Qed.

Lemma next_tag_direction p : contains "next" ("next_page_" ++ str p) = true.
Proof. reflexivity. Qed.

Lemma prev_tag_direction p : contains "next" ("prev_page_" ++ str p) = false.
Proof.
  apply contains_without_n. rewrite all_chars_app.
  apply andb_true_iff. split; [reflexivity|].
  apply all_chars_impl with (p := is_int_char); [|apply str_chars].
  intros c Hc. now apply int_char_props.
Qed.

End TagFacts.

(** C8: a click on a page-turn button whose tag carries page [p], on a
    message whose first embed has at least two fields (as the shop message
    has).  For a [next_page_p] tag the new page is [p + 1], for a
    [prev_page_p] tag it is [p - 1].  The handler reads the item list anew
    with [get_items], builds the shop view of that list at the new page,
    sets the value of the embed's second field to
    [str(new_page + 1) + "/" + str(total_pages)], leaves the rest of the
    embed as it was, and answers with [update_message], which edits the
    message in place: no new message is sent. *)
Theorem page_turn_spec (i : Interaction) (p : Z) (st : Backend)
  (e0 : Embed) (rest : list Embed) (f0 f1 : Field) (frest : list Field) :
  embeds (message i) = e0 :: rest ->
  fields e0 = f0 :: f1 :: frest ->
  let turned new_page :=
    let view := ShopView_init (fst (get_items st)) new_page in
    (inr (UpdateMessage
            (with_fields
               (f0 :: mkField (field_name f1)
                        (Py.str (new_page + 1) ++ "/"
                           ++ Py.str (total_pages view))
                        (field_inline f1) :: frest)
               e0)
            view),
     snd (get_items st)) in
  on_page_turn i ("next_page_" ++ Py.str p) st = turned (p + 1)
  /\ on_page_turn i ("prev_page_" ++ Py.str p) st = turned (p - 1).
Proof.
  intros Hemb Hfields turned. unfold turned.
  split; unfold on_page_turn, bind, of_option, ret.
  - change ("next_page_" ++ Py.str p)
      with ("next_page" ++ String "_" (Py.str p)) at 1.
    rewrite page_of_tag, next_tag_direction.
    destruct (get_items st) as [l st1]. cbn [fst snd].
    rewrite Hemb. cbn [nth_error]. unfold set_field_value.
    rewrite Hfields. reflexivity.
  - change ("prev_page_" ++ Py.str p)
      with ("prev_page" ++ String "_" (Py.str p)) at 1.
    rewrite page_of_tag, prev_tag_direction.
    destruct (get_items st) as [l st1]. cbn [fst snd].
    rewrite Hemb. cbn [nth_error]. unfold set_field_value.
    rewrite Hfields. reflexivity.
Qed.

Lemma page_turn_spec_witness :
  on_page_turn (Demo.click "1" "3") "next_page_0" Demo.backend7
  = (inr (UpdateMessage (Demo.shop_embed "2" "3")
                        (ShopView_init Demo.seven_items 1)),
     Demo.backend7)
  /\ on_page_turn (Demo.click "3" "3") "prev_page_2" Demo.backend7
     = (inr (UpdateMessage (Demo.shop_embed "2" "3")
                           (ShopView_init Demo.seven_items 1)),
        Demo.backend7).
Proof.
  split.
  - exact (proj1 (page_turn_spec (Demo.click "1" "3") 0 Demo.backend7
                    (Demo.shop_embed "1" "3") []
                    (mkField "Your Balance" "**100 coins**" true)
                    (mkField "Page" "1/3" true) [] eq_refl eq_refl)).
  - exact (proj2 (page_turn_spec (Demo.click "3" "3") 2 Demo.backend7
                    (Demo.shop_embed "3" "3") []
                    (mkField "Your Balance" "**100 coins**" true)
                    (mkField "Page" "3/3" true) [] eq_refl eq_refl)).
Defined.

(** ** The web server *)

(** C6, as the program behaves: the body is parsed before the headers are
    looked at, and outside the [try]; and a header that is present but empty
    counts as missing.  A request without signature headers whose body is
    not JSON leaves the handler with [JSONDecodeError] instead of a 401
    response; a request with an empty signature header is answered 401
    although no header is absent and nothing raised. *)
Lemma gateway_claim_fails :
  handle_interactions unit Demo.accept (mkRequest None None None)
                      (Demo.backend [])
  = (inl JSONDecodeError, Demo.backend [])
  /\ handle_interactions unit Demo.accept
       (mkRequest (Some tt) (Some "") (Some "1700000000")) (Demo.backend [])
     = (inr 401, Demo.backend []).
Proof. split; reflexivity. Qed.

(** C6, amended: for a request whose body parses as JSON.  If either
    signature header is absent or empty the answer is 401 and the client is
    not run (the backend is untouched).  Otherwise the client's
    [process_request] runs on the parsed body and the two header values: if
    it raises, the exception is caught, one line is printed and the answer
    is 500; if it returns, the answer is 200. *)
Theorem gateway_spec (Json : Type)
  (process_request : Json -> string -> string -> M unit)
  (request : Request Json) (data : Json) (st : Backend) :
  json_body request = Some data ->
  (signature_header request = None \/ signature_header request = Some ""
   \/ timestamp_header request = None \/ timestamp_header request = Some "" ->
   handle_interactions Json process_request request st = (inr 401, st))
  /\ (forall sg ts,
        signature_header request = Some sg -> sg <> "" ->
        timestamp_header request = Some ts -> ts <> "" ->
        (forall e st1,
            process_request data sg ts st = (inl e, st1) ->
            handle_interactions Json process_request request st
            = (inr 500, print processing_err e st1))
        /\ (forall u st1,
            process_request data sg ts st = (inr u, st1) ->
            handle_interactions Json process_request request st
            = (inr 200, st1))).
Proof.
  intros Hbody.
  unfold handle_interactions, request_json, of_option, bind, ret.
  rewrite Hbody. split.
  - intros [H|[H|[H|H]]]; rewrite H; cbn [falsy nonempty negb orb];
      try reflexivity;
      destruct (falsy (signature_header request)); reflexivity.
  - intros sg ts Hsg Hsgne Hts Htsne. rewrite Hsg, Hts.
    destruct sg as [|a sg]; [congruence|].
    destruct ts as [|b ts]; [congruence|].
    cbn [falsy nonempty negb orb]. unfold try_except.
    split; intros ? st1 Hrun; rewrite Hrun; reflexivity.
Qed.

Lemma gateway_spec_witness :
  handle_interactions unit Demo.accept
    (mkRequest (Some tt) (Some "a1b2") (Some "1700000000")) (Demo.backend [])
  = (inr 200, Demo.backend [])
  /\ handle_interactions unit Demo.reject
       (mkRequest (Some tt) (Some "a1b2") (Some "1700000000"))
       (Demo.backend [])
     = (inr 500,
        print processing_err (HandlerError "invalid request signature")
              (Demo.backend []))
  /\ handle_interactions unit Demo.accept
       (mkRequest (Some tt) None (Some "1700000000")) (Demo.backend [])
     = (inr 401, Demo.backend []).
Proof.
  pose (ok := mkRequest (Some tt) (Some "a1b2") (Some "1700000000")).
  assert (Hne1 : "a1b2" <> "") by discriminate.
  assert (Hne2 : "1700000000" <> "") by discriminate.
  split; [|split].
  - exact (proj2 (proj2 (gateway_spec unit Demo.accept ok tt (Demo.backend [])
                           eq_refl)
                    "a1b2" "1700000000" eq_refl Hne1 eq_refl Hne2)
             tt (Demo.backend []) eq_refl).
  - exact (proj1 (proj2 (gateway_spec unit Demo.reject ok tt (Demo.backend [])
                           eq_refl)
                    "a1b2" "1700000000" eq_refl Hne1 eq_refl Hne2)
             (HandlerError "invalid request signature") (Demo.backend [])
             eq_refl).
  - exact (proj1 (gateway_spec unit Demo.accept
                    (mkRequest (Some tt) None (Some "1700000000")) tt
                    (Demo.backend []) eq_refl)
             (or_introl eq_refl)).
Defined.

(* ================================================================== *)
(** * Further properties of the program *)

(** ** The ledger helpers under any schedule of backend failures *)

Section FrameFacts.

Lemma collect_items_length rows : forall acc its,
  collect_items rows acc = inr its ->
  (List.length its <= List.length acc + List.length rows)%nat.
Proof.
  induction rows as [|row rows IH]; intros acc its; cbn [collect_items].
  - intros [= <-]. simpl. lia.
  - destruct (3 <=? List.length row)%nat.
    + destruct (item_of_row row) as [e|it]; [discriminate|].
      intros H. apply IH in H. rewrite length_app in H. simpl in *. lia.
    + intros H. apply IH in H. simpl. lia.
Qed.

End FrameFacts.

(** X1: whatever the backend does, [get_currency] leaves the Items sheet
    and every existing row of the Currency sheet alone: the Currency sheet
    afterwards is the old one followed by nothing, by the complete new row
    [(user_id, "0")], or (when the second write failed) by the row
    [(user_id)] without a balance; nothing is appended when some cell
    already matches the user id.  Either nothing is printed, or exactly one
    line is printed and the result is [0]. *)
Theorem get_currency_frame (user_id : string) (st : Backend) :
  items_sheet (snd (get_currency user_id st)) = items_sheet st
  /\ (exists extra,
        currency_sheet (snd (get_currency user_id st))
        = (currency_sheet st ++ extra)%list
        /\ (extra = [] \/ extra = [[user_id]] \/ extra = [[user_id; "0"]])
        /\ (Sheet.find user_id (currency_sheet st) <> None -> extra = []))
  /\ (log (snd (get_currency user_id st)) = log st
      \/ fst (get_currency user_id st) = 0
         /\ exists e, log (snd (get_currency user_id st))
                      = (log st ++ [(get_currency_err, e)])%list).
Proof. exact (get_currency_effect user_id st). Qed.

(** X2: whatever the backend does, [update_currency] never adds a row,
    never touches the Items sheet and never changes a cell outside column 2
    of the Currency sheet; and when it returns [False] the Currency sheet is
    exactly as before. *)
Theorem update_currency_frame (user_id : string) (amount : Z) (st : Backend) :
  items_sheet (snd (update_currency user_id amount st)) = items_sheet st
  /\ List.length (currency_sheet (snd (update_currency user_id amount st)))
     = List.length (currency_sheet st)
  /\ (forall r c, c <> 2%nat ->
        Sheet.value (currency_sheet (snd (update_currency user_id amount st)))
                    r c
        = Sheet.value (currency_sheet st) r c)
  /\ (fst (update_currency user_id amount st) = false ->
      currency_sheet (snd (update_currency user_id amount st))
      = currency_sheet st).
Proof.
  destruct (Sheet.find user_id (currency_sheet st)) as [[r c]|] eqn:Hfind.
  - pose proof (find_bounds _ _ _ _ Hfind) as (Hr & _ & _).
    fault_cases st; cbn [currency_sheet] in Hfind, Hr; run_helpers;
      rewrite ?Hfind; step;
      repeat split; auto; try discriminate;
      try (apply length_update; lia);
      intros r' c' Hc; apply value_update_other; congruence.
  - fault_cases st; cbn [currency_sheet] in Hfind; run_helpers;
      rewrite ?Hfind; step; repeat split; auto.
Qed.

(** X3: whatever the backend does, [get_items] changes neither sheet,
    returns at most one item per row below the header, and either prints
    nothing or prints exactly one line and returns the empty list. *)
Theorem get_items_frame (st : Backend) :
  currency_sheet (snd (get_items st)) = currency_sheet st
  /\ items_sheet (snd (get_items st)) = items_sheet st
  /\ (List.length (fst (get_items st))
      <= List.length (List.tl (items_sheet st)))%nat
  /\ (log (snd (get_items st)) = log st
      \/ fst (get_items st) = []
         /\ exists e, log (snd (get_items st))
                      = (log st ++ [(get_items_err, e)])%list).
Proof.
  destruct st as [cur itm flt lg]. destruct flt as [|[] f];
    run_helpers; step;
    try (repeat split; eauto; lia);
    destruct (collect_items (List.tl (Sheet.fill_gaps itm)) [])
      as [e|its] eqn:Hc; step;
    repeat split; eauto; try (simpl; lia);
    apply collect_items_length in Hc; rewrite tl_fill_gaps_length in Hc;
    simpl in Hc; lia.
Qed.

(** ** Writing a balance and reading it back *)

Section RoundTrip.

Import Sheet.

Lemma find_in_row_set_keep q v : forall row c0 n,
  v <> q -> (n <= List.length row)%nat ->
  find_in_row q row c0 <> Some (c0 + n)%nat ->
  find_in_row q (set_nth EmptyString n v row) c0 = find_in_row q row c0.
Proof.
  induction row as [|x t IH]; intros c0 n Hv Hn Hne.
  - destruct n as [|n]; [|simpl in Hn; lia]. simpl.
    destruct (String.eqb_spec v q); [contradiction|reflexivity].
  - destruct n as [|n]; simpl in *.
    + destruct (String.eqb_spec x q) as [Hx|Hx].
      * exfalso. apply Hne. f_equal. lia.
      * destruct (String.eqb_spec v q); [contradiction|reflexivity].
    + destruct (String.eqb x q); [reflexivity|].
      apply IH; auto; [lia|]. intros H. apply Hne. rewrite H. f_equal. lia.
Qed.

Lemma find_from_set_keep q v c : forall g r0 k,
  v <> q -> (k < List.length g)%nat ->
  (c <= List.length (nth k g []))%nat ->
  find_from q g r0 <> Some ((r0 + k)%nat, S c) ->
  find_from q (set_nth [] k (set_nth EmptyString c v (nth k g [])) g) r0
  = find_from q g r0.
Proof.
  induction g as [|row g IH]; intros r0 k Hv Hk Hc Hne; [simpl in Hk; lia|].
  destruct k as [|k]; simpl in *.
  - rewrite find_in_row_set_keep; auto.
    intros H. apply Hne. rewrite H. f_equal. f_equal. lia.
  - destruct (find_in_row q row 1); [reflexivity|].
    apply IH; auto; [lia|]. intros H. apply Hne. rewrite H.
    do 2 f_equal. lia.
Qed.

(** Overwriting a balance cell with a text other than [q] does not change
    what [find] returns for [q], unless [find] returned that very cell. *)
Lemma find_update_keep q g r v :
  v <> q -> (1 <= r <= List.length g)%nat ->
  (1 <= List.length (nth (r - 1) g []))%nat ->
  find q g <> Some (r, 2%nat) ->
  find q (update g r 2 v) = find q g.
Proof.
  intros Hv Hr Hrow Hne. unfold find, update in *.
  destruct r as [|r]; [lia|].
  replace (S r - 1)%nat with r in Hrow by lia.
  apply find_from_set_keep; auto; lia.
Qed.

Lemma find_row_nonempty q g r c :
  find q g = Some (r, c) -> (1 <= List.length (nth (r - 1) g []))%nat.
Proof.
  intros H. unfold find in H.
  pose proof (find_from_row _ _ _ _ _ H) as Hrow.
  apply find_in_row_bounds in Hrow. lia.
Qed.

End RoundTrip.

(** Reading back, on a healthy backend, the balance just written. *)
Lemma get_after_update (user_id : string) (amount : Z) (st : Backend)
  (r : nat) :
  faults st = [] ->
  Sheet.find user_id (currency_sheet st) = Some (r, 1%nat) ->
  update_currency user_id amount st
  = (true, with_grid Currency
             (Sheet.update (currency_sheet st) r 2 (Py.str amount)) st)
  /\ get_currency user_id (snd (update_currency user_id amount st))
     = (amount, snd (update_currency user_id amount st)).
Proof.
  intros Hf Hfind.
  pose proof (find_bounds _ _ _ _ Hfind) as (Hr & _ & _).
  rewrite (update_currency_found _ _ _ _ _ Hf Hfind). cbn [fst snd].
  split; [reflexivity|].
  set (g2 := Sheet.update (currency_sheet st) r 2 (Py.str amount)).
  set (st2 := with_grid Currency g2 st).
  assert (Hg2 : currency_sheet st2 = g2) by (now destruct st).
  assert (Hf2 : faults st2 = []) by (now destruct st).
  apply (get_currency_found user_id st2 r 1 amount Hf2).
  - rewrite Hg2. apply find_update_right; auto.
  - rewrite Hg2. unfold g2. rewrite value_update_same by lia.
    apply int_str.
Qed.

(** X4: on a healthy backend, for a user whose row [find] reaches through
    its first column: [update_currency] returns [True], and [get_currency]
    then returns the amount just written and changes nothing.  The balance
    [get_currency] reports for any other user found through the first
    column is unaffected, provided the text written is not that user's
    id. *)
Theorem update_then_get (user_id : string) (amount : Z) (st : Backend)
  (r : nat) :
  faults st = [] ->
  Sheet.find user_id (currency_sheet st) = Some (r, 1%nat) ->
  fst (update_currency user_id amount st) = true
  /\ get_currency user_id (snd (update_currency user_id amount st))
     = (amount, snd (update_currency user_id amount st))
  /\ (forall other r',
        other <> user_id -> Py.str amount <> other ->
        Sheet.find other (currency_sheet st) = Some (r', 1%nat) ->
        fst (get_currency other (snd (update_currency user_id amount st)))
        = fst (get_currency other st)).
Proof.
  intros Hf Hfind.
  pose proof (find_bounds _ _ _ _ Hfind) as (Hr & _ & Hval).
  pose proof (find_row_nonempty _ _ _ _ Hfind) as Hrow.
  rewrite (update_currency_found _ _ _ _ _ Hf Hfind). cbn [fst snd].
  set (g2 := Sheet.update (currency_sheet st) r 2 (Py.str amount)).
  set (st2 := with_grid Currency g2 st).
  assert (Hg2 : currency_sheet st2 = g2) by (now destruct st).
  assert (Hf2 : faults st2 = []) by (now destruct st).
  split; [reflexivity|]. split.
  - pose proof (get_after_update user_id amount st r Hf Hfind) as [Hu Hg].
    rewrite Hu in Hg. exact Hg.
  - intros other r' Hother Hstr Hfo.
    pose proof (find_bounds _ _ _ _ Hfo) as (Hr' & _ & Hval').
    assert (Hrr : r' <> r) by (intros ->; congruence).
    assert (Hfo2 : Sheet.find other (currency_sheet st2) = Some (r', 1%nat)).
    { rewrite Hg2. unfold g2. rewrite find_update_keep; auto.
      rewrite Hfo. congruence. }
    assert (Hv2 : Sheet.value (currency_sheet st2) r' 2
                  = Sheet.value (currency_sheet st) r' 2).
    { rewrite Hg2. apply value_update_other. congruence. }
    destruct (Py.int (Sheet.value (currency_sheet st) r' 2)) as [b|] eqn:Hb.
    + rewrite (get_currency_found other st2 r' 1 b Hf2 Hfo2)
        by (now rewrite Hv2).
      now rewrite (get_currency_found other st r' 1 b Hf Hfo Hb).
    + rewrite (get_currency_bad_cell other st2 r' 1 Hf2 Hfo2)
        by (now rewrite Hv2).
      now rewrite (get_currency_bad_cell other st r' 1 Hf Hfo Hb).
Qed.

Lemma update_then_get_witness :
  get_currency "42"
    (snd (update_currency "42" 40 (Demo.backend [["7"; "5"]; ["42"; "100"]])))
  = (40, Demo.backend [["7"; "5"]; ["42"; "40"]])
  /\ fst (get_currency "7"
            (snd (update_currency "42" 40
                    (Demo.backend [["7"; "5"]; ["42"; "100"]]))))
     = 5.
Proof.
  destruct (update_then_get "42" 40 (Demo.backend [["7"; "5"]; ["42"; "100"]])
              3 eq_refl eq_refl) as (_ & Hget & Hother).
  split; [exact Hget|].
  rewrite (Hother "7" 2%nat); [reflexivity|discriminate|discriminate|].
  reflexivity.
Defined.

(** ** Repeated queries and repeated purchases *)

(** X5: on a healthy backend the lazy creation of a row happens at most
    once: a second [get_currency] for the same user returns the same balance
    and leaves the Currency sheet as the first call left it, and the first
    call adds at most one row. *)
Theorem get_currency_twice (user_id : string) (st : Backend) :
  faults st = [] ->
  fst (get_currency user_id (snd (get_currency user_id st)))
  = fst (get_currency user_id st)
  /\ currency_sheet (snd (get_currency user_id (snd (get_currency user_id st))))
     = currency_sheet (snd (get_currency user_id st))
  /\ (List.length (currency_sheet (snd (get_currency user_id st)))
      <= S (List.length (currency_sheet st)))%nat.
Proof.
  intros Hf.
  destruct (get_currency user_id st) as [b st1] eqn:Hget. cbn [fst snd].
  destruct (get_currency_settled _ _ _ _ Hf Hget)
    as (Hf1 & _ & (r & c & Hfind1 & _ & _) & Hagain & _).
  split; [exact Hagain|]. split.
  - destruct (get_currency_cases user_id st1 Hf1)
      as [(r' & c' & b' & _ & _ & Heq)
         |[(r' & c' & _ & _ & Heq)|(Hnone & _)]];
      try congruence; rewrite Heq; now destruct st1.
  - destruct (get_currency_cases user_id st Hf)
      as [(r' & c' & b' & _ & _ & Heq)
         |[(r' & c' & _ & _ & Heq)|(_ & Heq)]];
      rewrite Heq in Hget; injection Hget as <- <-;
      destruct st as [cur itm flt lg]; unfold print, with_grid;
      cbn [currency_sheet]; rewrite ?length_app; simpl; lia.
Qed.

Lemma get_currency_twice_witness :
  get_currency "7" (snd (get_currency "7" (Demo.backend [["42"; "100"]])))
  = (0, Demo.backend [["42"; "100"]; ["7"; "0"]]).
Proof.
  destruct (get_currency_twice "7" (Demo.backend [["42"; "100"]]) eq_refl)
    as (Hb & Hs & _).
  apply injective_projections; [exact Hb|].
  cbn [snd]. reflexivity.
Defined.

(** X6: when the backend fails between the two writes that create a row,
    the user is left with a row without a balance and gets [0].  From then
    on, on a healthy backend, every query finds that row, fails to read the
    empty balance, prints a line and returns [0] without adding another
    row; writing a balance with [update_currency] repairs the row. *)
Theorem get_currency_half_row (user_id : string) (amount : Z) (st : Backend) :
  Sheet.find user_id (currency_sheet st) = None ->
  faults st = [false; false; false; true] ->
  get_currency user_id st
  = (0, mkBackend (currency_sheet st ++ [[user_id]])%list (items_sheet st) []
                  (log st ++ [(get_currency_err, APIError)])%list)
  /\ get_currency user_id (snd (get_currency user_id st))
     = (0, print get_currency_err ValueError (snd (get_currency user_id st)))
  /\ get_currency user_id
       (snd (update_currency user_id amount (snd (get_currency user_id st))))
     = (amount,
        snd (update_currency user_id amount (snd (get_currency user_id st)))).
Proof.
  intros Hfind Hf.
  assert (Hget : get_currency user_id st
    = (0, mkBackend (currency_sheet st ++ [[user_id]])%list (items_sheet st)
                    [] (log st ++ [(get_currency_err, APIError)])%list)).
  { destruct st as [cur itm flt lg]. cbn [faults currency_sheet] in *.
    subst flt. run_helpers. rewrite Hfind. step.
    now rewrite update_first_cell. }
  rewrite Hget. cbn [snd].
  set (st1 := mkBackend _ _ _ _).
  assert (Hf1 : faults st1 = []) by reflexivity.
  assert (Hfind1 : Sheet.find user_id (currency_sheet st1)
                   = Some (S (List.length (currency_sheet st)), 1%nat)).
  { cbn [st1 currency_sheet]. unfold Sheet.find in *.
    rewrite find_from_app, Hfind. simpl. now rewrite String.eqb_refl. }
  split; [reflexivity|]. split.
  - apply (get_currency_bad_cell user_id st1 _ _ Hf1 Hfind1).
    cbn [st1 currency_sheet]. unfold Sheet.value.
    rewrite app_nth2, Nat.sub_diag by lia. reflexivity.
  - apply (get_after_update user_id amount st1 _ Hf1 Hfind1).
Qed.

Lemma get_currency_half_row_witness :
  get_currency "7" (Demo.flaky [["42"; "100"]] [false; false; false; true])
  = (0, mkBackend [Demo.currency_header; ["42"; "100"]; ["7"]] Demo.catalog
                  [] [(get_currency_err, APIError)]).
Proof.
  exact (proj1 (get_currency_half_row "7" 0
                  (Demo.flaky [["42"; "100"]] [false; false; false; true])
                  eq_refl eq_refl)).
Defined.

Section PurchaseSteps.

Variable self : BuyButton.
Variable i : Interaction.

Let uid := Py.str (author_id i).
Let cost := price (buy_item self).

(** One press of the button, for a user whose row is reached through its
    first column and holds the integer balance [b]. *)
Lemma purchase_step st r b :
  faults st = [] ->
  Sheet.find uid (currency_sheet st) = Some (r, 1%nat) ->
  Py.int (Sheet.value (currency_sheet st) r 2) = Some b ->
  faults (snd (BuyButton_callback self i st)) = []
  /\ Sheet.find uid (currency_sheet (snd (BuyButton_callback self i st)))
     = Some (r, 1%nat)
  /\ Py.int (Sheet.value (currency_sheet (snd (BuyButton_callback self i st)))
                         r 2)
     = Some (if cost <=? b then b - cost else b).
Proof.
  intros Hf Hfind Hint.
  pose proof (find_bounds _ _ _ _ Hfind) as (Hr & _ & _).
  unfold BuyButton_callback. fold uid cost.
  rewrite (get_currency_found uid st r 1 b Hf Hfind Hint).
  destruct (cost <=? b); cbn [snd]; auto.
  rewrite (update_currency_found uid st r 1 (b - cost) Hf Hfind).
  destruct st as [cur itm flt lg]; cbn in *. repeat split; auto.
  - apply find_update_right; auto.
  - rewrite value_update_same by lia. apply int_str.
Qed.

Lemma press_invariant st r b :
  faults st = [] ->
  Sheet.find uid (currency_sheet st) = Some (r, 1%nat) ->
  Py.int (Sheet.value (currency_sheet st) r 2) = Some b ->
  0 <= b -> 0 <= cost ->
  forall n, exists b',
    faults (press self i n st) = []
    /\ Sheet.find uid (currency_sheet (press self i n st)) = Some (r, 1%nat)
    /\ Py.int (Sheet.value (currency_sheet (press self i n st)) r 2) = Some b'
    /\ 0 <= b'
    /\ (0 < cost -> b' = b - cost * Z.min (Z.of_nat n) (b / cost)).
Proof.
  intros Hf Hfind Hint Hb Hc n. induction n as [|n IH].
  - exists b. repeat split; auto. intros Hp.
    rewrite Z.min_l; [lia|]. apply Z.div_pos; lia.
  - destruct IH as (b' & Hf' & Hfind' & Hint' & Hb' & Hval).
    destruct (purchase_step _ _ _ Hf' Hfind' Hint') as (Hf2 & Hfind2 & Hint2).
    exists (if cost <=? b' then b' - cost else b').
    change (press self i (S n) st)
      with (snd (BuyButton_callback self i (press self i n st))).
    repeat split; auto.
    + destruct (Z.leb_spec cost b'); lia.
    + intros Hp. specialize (Hval Hp).
      pose proof (Z.div_mod b cost ltac:(lia)) as Hdm.
      pose proof (Z.mod_pos_bound b cost Hp) as Hm.
      assert (Hq : 0 <= b / cost) by (apply Z.div_pos; lia).
      destruct (Z.min_spec (Z.of_nat n) (b / cost)) as [[Hlt Hmin]|[Hge Hmin]];
        rewrite Hmin in Hval;
        destruct (Z.min_spec (Z.of_nat (S n)) (b / cost))
          as [[Hlt' Hmin']|[Hge' Hmin']];
        rewrite Hmin'; destruct (Z.leb_spec cost b'); nia.
Qed.

End PurchaseSteps.

(** X7: repeated presses of one purchase button on a healthy backend, by a
    user whose row is reached through its first column and holds an integer
    balance [b >= 0], for an item whose price is not negative.  After any
    number of presses the balance read back is not negative; when the price
    is positive it is [b - price * min(n, b / price)]: exactly the first
    [b / price] presses are paid for and the later ones change nothing. *)
Theorem purchases_never_overdraw (self : BuyButton) (i : Interaction)
  (st : Backend) (r : nat) (b : Z) (n : nat) :
  faults st = [] ->
  Sheet.find (Py.str (author_id i)) (currency_sheet st) = Some (r, 1%nat) ->
  Py.int (Sheet.value (currency_sheet st) r 2) = Some b ->
  0 <= b -> 0 <= price (buy_item self) ->
  0 <= fst (get_currency (Py.str (author_id i)) (press self i n st))
  /\ (0 < price (buy_item self) ->
      fst (get_currency (Py.str (author_id i)) (press self i n st))
      = b - price (buy_item self)
            * Z.min (Z.of_nat n) (b / price (buy_item self))).
Proof.
  intros Hf Hfind Hint Hb Hc.
  destruct (press_invariant self i st r b Hf Hfind Hint Hb Hc n)
    as (b' & Hf' & Hfind' & Hint' & Hb' & Hval).
  rewrite (get_currency_found _ _ r 1 b' Hf' Hfind' Hint'). cbn [fst].
  split; auto.
Qed.

Lemma purchases_never_overdraw_witness :
  fst (get_currency "42"
         (press (BuyButton_init Demo.vip) (Demo.user 42) 5
                (Demo.backend [["42"; "100"]])))
  = 40.
Proof.
  destruct (purchases_never_overdraw (BuyButton_init Demo.vip) (Demo.user 42)
              (Demo.backend [["42"; "100"]]) 2 100 5
              eq_refl eq_refl eq_refl ltac:(lia) ltac:(simpl; lia))
    as (_ & H).
  assert (Hp : 0 < price (buy_item (BuyButton_init Demo.vip)))
    by (simpl; lia).
  exact (H Hp).
Defined.

(** ** The shop command and the messages it sends *)

Section ShopFacts.

Lemma get_items_sheets st :
  currency_sheet (snd (get_items st)) = currency_sheet st
  /\ items_sheet (snd (get_items st)) = items_sheet st.
Proof.
  destruct st as [cur itm flt lg]. destruct flt as [|[] f];
    run_helpers; step; auto;
    destruct (collect_items (List.tl (Sheet.fill_gaps itm)) []); auto.
Qed.

Lemma get_items_malformed st row :
  faults st = [] ->
  In row (Spec.item_rows (items_sheet st)) ->
  Spec.item_of row = None ->
  fst (get_items st) = [].
Proof.
  intros Hf Hin Hbad. healthy st Hf.
  destruct (collect_items_bad _ [] row Hin Hbad) as [e He].
  now rewrite He.
Qed.

Lemma get_items_failed st f :
  faults st = true :: f -> fst (get_items st) = [].
Proof.
  intros Hf. destruct st as [cur itm flt lg]. simpl in Hf. now subst flt.
Qed.

(** What [shop] does with the item list it read. *)
Lemma shop_eq i st :
  shop i st
  = match fst (get_items st) with
    | [] => (Send (Some "The shop is currently empty.") None None true,
             snd (get_items st))
    | _ =>
        (Send None
           (Some (mkEmbed "🛒 Role Shop"
                    "Browse and purchase roles with your currency!"
                    3447003 None None
                    [ mkField "Your Balance"
                        ("**" ++ Py.format_comma
                                   (fst (get_currency (Py.str (author_id i))
                                           (snd (get_items st))))
                              ++ " coins**") true;
                      mkField "Page"
                        ("1/" ++ Py.str (total_pages
                                           (ShopView_init (fst (get_items st))
                                                          0)))
                        true ]))
           (Some (ShopView_init (fst (get_items st)) 0)) true,
         snd (get_currency (Py.str (author_id i)) (snd (get_items st))))
    end.
Proof.
  unfold shop. destruct (get_items st) as [l st1]. cbn [fst snd].
  destruct l as [|it l]; [reflexivity|].
  destruct (get_currency (Py.str (author_id i)) st1) as [b st2].
  reflexivity.
Qed.

(** A click on a page button of a message whose first embed has two
    fields or more. *)
Lemma on_page_turn_tag (next : bool) i p st e0 rest f0 f1 frest :
  embeds (message i) = e0 :: rest ->
  fields e0 = f0 :: f1 :: frest ->
  on_page_turn i ((if next then "next_page_" else "prev_page_") ++ Py.str p)
               st
  = (inr (UpdateMessage
            (with_fields
               (f0 :: mkField (field_name f1)
                        (Py.str (p + (if next then 1 else -1) + 1) ++ "/"
                           ++ Py.str (total_pages
                                        (ShopView_init (fst (get_items st))
                                           (p + (if next then 1 else -1)))))
                        (field_inline f1) :: frest)
               e0)
            (ShopView_init (fst (get_items st))
                           (p + (if next then 1 else -1)))),
     snd (get_items st)).
Proof.
  intros Hemb Hfields.
  destruct next; unfold on_page_turn, bind, of_option, ret.
  - change ("next_page_" ++ Py.str p)
      with ("next_page" ++ String "_" (Py.str p)) at 1.
    rewrite page_of_tag, next_tag_direction.
    destruct (get_items st) as [l st1]. cbn [fst snd].
    rewrite Hemb. cbn [nth_error]. unfold set_field_value.
    rewrite Hfields. reflexivity.
  - change ("prev_page_" ++ Py.str p)
      with ("prev_page" ++ String "_" (Py.str p)) at 1.
    rewrite page_of_tag, prev_tag_direction.
    destruct (get_items st) as [l st1]. cbn [fst snd].
    rewrite Hemb. cbn [nth_error]. unfold set_field_value.
    rewrite Hfields. reflexivity.
Qed.

End ShopFacts.

(** X8: when [get_items] returns no item, [shop] answers with the ephemeral
    text that the shop is empty, sends no view, and does not ask for the
    user's balance: the Currency sheet is untouched, so no row is created.
    This is also what a user sees when the backend call fails, or when, on
    a healthy backend, a single row with three cells or more has a price or
    role id that is not an integer. *)
Theorem shop_empty (i : Interaction) (st : Backend) :
  (fst (get_items st) = [] ->
   shop i st
   = (Send (Some "The shop is currently empty.") None None true,
      snd (get_items st))
   /\ currency_sheet (snd (shop i st)) = currency_sheet st)
  /\ (forall f, faults st = true :: f ->
        fst (shop i st)
        = Send (Some "The shop is currently empty.") None None true)
  /\ (forall row,
        faults st = [] ->
        In row (Spec.item_rows (items_sheet st)) ->
        Spec.item_of row = None ->
        fst (shop i st)
        = Send (Some "The shop is currently empty.") None None true).
Proof.
  assert (Hempty : fst (get_items st) = [] ->
            shop i st
            = (Send (Some "The shop is currently empty.") None None true,
               snd (get_items st))).
  { intros H. rewrite shop_eq, H. reflexivity. }
  split; [|split].
  - intros H. split; [auto|]. rewrite (Hempty H). cbn [snd].
    apply get_items_sheets.
  - intros f Hf. now rewrite (Hempty (get_items_failed st f Hf)).
  - intros row Hf Hin Hbad.
    now rewrite (Hempty (get_items_malformed st row Hf Hin Hbad)).
Qed.

Lemma shop_empty_witness :
  shop (Demo.user 7)
       (mkBackend [Demo.currency_header]
                  [Demo.items_header; ["VIP"; "60"; "111"]; ["Oops"; "10"; ""]]
                  [] [])
  = (Send (Some "The shop is currently empty.") None None true,
     mkBackend [Demo.currency_header]
               [Demo.items_header; ["VIP"; "60"; "111"]; ["Oops"; "10"; ""]]
               [] [(get_items_err, ValueError)]).
Proof.
  exact (proj1 (proj1 (shop_empty (Demo.user 7)
                         (mkBackend [Demo.currency_header]
                            [Demo.items_header; ["VIP"; "60"; "111"];
                             ["Oops"; "10"; ""]] [] []))
                  eq_refl)).
Defined.

(** X9: when [shop] sends a view, the view is page 0 of the items just
    read, there is at least one page, and the embed has exactly the two
    fields "Your Balance" and "Page", the latter showing [1/total_pages].
    A later click on a page button of that message therefore never fails on
    the embed: for a tag carrying page [p] the handler rewrites the "Page"
    field for the new page and carries the "Your Balance" field over
    unchanged (the balance shown is not read again). *)
Theorem shop_then_page_turn (i : Interaction) (st : Backend)
  (embed : Embed) (view : ShopView) (st1 : Backend) :
  shop i st = (Send None (Some embed) (Some view) true, st1) ->
  view = ShopView_init (fst (get_items st)) 0
  /\ 1 <= total_pages view
  /\ exists bal,
       fields embed
       = [ mkField "Your Balance" bal true;
           mkField "Page" ("1/" ++ Py.str (total_pages view)) true ]
       /\ forall (next : bool) j p st2,
            embeds (message j) = [embed] ->
            on_page_turn j
              ((if next then "next_page_" else "prev_page_") ++ Py.str p) st2
            = (inr (UpdateMessage
                      (with_fields
                         [ mkField "Your Balance" bal true;
                           mkField "Page"
                             (Py.str (p + (if next then 1 else -1) + 1) ++ "/"
                                ++ Py.str
                                     (total_pages
                                        (ShopView_init (fst (get_items st2))
                                           (p + (if next then 1 else -1)))))
                             true ]
                         embed)
                      (ShopView_init (fst (get_items st2))
                                     (p + (if next then 1 else -1)))),
               snd (get_items st2)).
Proof.
  rewrite shop_eq. destruct (fst (get_items st)) as [|it l] eqn:Hl;
    [discriminate|].
  intros H. injection H as <- <- <-.
  split; [reflexivity|]. split.
  - pose proof (total_pages_ceil (it :: l) 0) as [_ Hc].
    change (List.length (it :: l)) with (S (List.length l)) in Hc. lia.
  - eexists. split; [reflexivity|].
    intros next j p st2 Hj.
    now rewrite (on_page_turn_tag next j p st2 _ [] _ _ [] Hj eq_refl).
Qed.

Lemma shop_then_page_turn_witness :
  on_page_turn (Demo.click "1" "3") "next_page_0" Demo.backend7
  = (inr (UpdateMessage (Demo.shop_embed "2" "3")
                        (ShopView_init Demo.seven_items 1)),
     Demo.backend7).
Proof.
  destruct (shop_then_page_turn (Demo.user 42) Demo.backend7
              (Demo.shop_embed "1" "3")
              (ShopView_init Demo.seven_items 0) Demo.backend7 eq_refl)
    as (_ & _ & bal & Hfields & Hturn).
  injection Hfields as <-.
  exact (Hturn true (Demo.click "1" "3") 0 Demo.backend7 eq_refl).
Defined.

(** ** Page turns that fail, and page turns that cannot *)

(** X10: how [on_page_turn] fails.  A tag whose last [_]-separated field
    is not an integer raises [ValueError] before anything else happens (the
    backend is untouched).  With a readable tag, the item list is read
    first; then a message without embed, or whose first embed has fewer
    than two fields, raises [IndexError]. *)
Theorem page_turn_errors (i : Interaction) (tag : string) (st : Backend) :
  (Py.int (Py.last_field (Py.split "_" tag)) = None ->
   on_page_turn i tag st = (inl ValueError, st))
  /\ (forall p,
        Py.int (Py.last_field (Py.split "_" tag)) = Some p ->
        embeds (message i) = [] ->
        on_page_turn i tag st = (inl IndexError, snd (get_items st)))
  /\ (forall p e0 rest,
        Py.int (Py.last_field (Py.split "_" tag)) = Some p ->
        embeds (message i) = e0 :: rest ->
        (List.length (fields e0) < 2)%nat ->
        on_page_turn i tag st = (inl IndexError, snd (get_items st))).
Proof.
  unfold on_page_turn, bind, of_option, ret, raise. split; [|split].
  - intros H. now rewrite H.
  - intros p Hp Hemb. rewrite Hp.
    destruct (get_items st) as [l st1]. cbn [fst snd].
    now rewrite Hemb.
  - intros p e0 rest Hp Hemb Hlen. rewrite Hp.
    destruct (get_items st) as [l st1]. cbn [fst snd].
    rewrite Hemb. cbn [nth_error]. unfold set_field_value.
    destruct (fields e0) as [|f0 [|f1 fs]]; simpl in *; try reflexivity; lia.
Qed.

Lemma page_turn_errors_witness :
  on_page_turn (Demo.click "1" "3") "next_page_two" Demo.backend7
  = (inl ValueError, Demo.backend7)
  /\ on_page_turn (Demo.user 42) "next_page_0" Demo.backend7
     = (inl IndexError, Demo.backend7).
Proof.
  split.
  - exact (proj1 (page_turn_errors (Demo.click "1" "3") "next_page_two"
                    Demo.backend7) eq_refl).
  - exact (proj1 (proj2 (page_turn_errors (Demo.user 42) "next_page_0"
                           Demo.backend7)) 0 eq_refl eq_refl).
Defined.

Section PagerFacts.

Lemma page_in_range_nonempty (l : list ShopItem) (q : Z) :
  0 <= q < total_pages (ShopView_init l q) ->
  purchase_controls (ShopView_init l q) <> []
  /\ (1 <= List.length (purchase_controls (ShopView_init l q)) <= 3)%nat.
Proof.
  intros Hq. pose proof (total_pages_ceil l q) as [Hc _].
  rewrite purchase_controls_eq, slice_firstn_skipn by lia.
  assert (Hlen : (1 <= List.length
                        (firstn (Z.to_nat (q * 3 + 3 - q * 3))
                                (skipn (Z.to_nat (q * 3)) l)) <= 3)%nat).
  { rewrite length_firstn, length_skipn. lia. }
  rewrite length_map. split; [|exact Hlen].
  intros H. apply (f_equal (@List.length _)) in H.
  rewrite length_map in H. simpl in H. lia.
Qed.

Lemma total_pages_any (l : list ShopItem) (p q : Z) :
  total_pages (ShopView_init l p) = total_pages (ShopView_init l q).
Proof. now rewrite !ShopView_init_eq. Qed.

End PagerFacts.

(** X11: following a button the view shows as enabled never leaves the
    pages.  Take the view of [l] at a page [p] in range and a backend whose
    item list is still [l].  If the "next" button is enabled, clicking it
    (its own tag fed to [on_page_turn]) gives the view of page [p + 1],
    which is in range and shows between one and three purchase controls;
    likewise the enabled "previous" button gives page [p - 1]. *)
Theorem enabled_buttons_stay_in_range (l : list ShopItem) (p : Z)
  (i : Interaction) (st : Backend)
  (e0 : Embed) (rest : list Embed) (f0 f1 : Field) (frest : list Field)
  (prev next : Button) :
  0 <= p < total_pages (ShopView_init l p) ->
  fst (get_items st) = l ->
  embeds (message i) = e0 :: rest ->
  fields e0 = f0 :: f1 :: frest ->
  nav_controls (ShopView_init l p) = [prev; next] ->
  (disabled next = false ->
   exists embed,
     on_page_turn i (custom_id next) st
     = (inr (UpdateMessage embed (ShopView_init l (p + 1))),
        snd (get_items st))
     /\ 0 <= p + 1 < total_pages (ShopView_init l (p + 1))
     /\ (1 <= List.length (purchase_controls (ShopView_init l (p + 1)))
         <= 3)%nat)
  /\ (disabled prev = false ->
      exists embed,
        on_page_turn i (custom_id prev) st
        = (inr (UpdateMessage embed (ShopView_init l (p - 1))),
           snd (get_items st))
        /\ 0 <= p - 1 < total_pages (ShopView_init l (p - 1))
        /\ (1 <= List.length (purchase_controls (ShopView_init l (p - 1)))
            <= 3)%nat).
Proof.
  intros Hp Hl Hemb Hfields Hnav.
  rewrite nav_controls_eq in Hnav.
  assert (Hprev : prev = prev_button p) by congruence.
  assert (Hnext : next = next_button p (total_pages (ShopView_init l p)))
    by congruence.
  subst prev next. clear Hnav.
  cbn [prev_button next_button custom_id disabled].
  split; intros Hen.
  - apply Z.leb_gt in Hen.
    assert (Hq : 0 <= p + 1 < total_pages (ShopView_init l (p + 1)))
      by (rewrite (total_pages_any l (p + 1) p); lia).
    eexists. split; [|split; [exact Hq|]].
    + rewrite (on_page_turn_tag true i p st e0 rest f0 f1 frest Hemb Hfields).
      rewrite Hl. reflexivity.
    + apply page_in_range_nonempty; exact Hq.
  - apply Z.eqb_neq in Hen.
    assert (Hq : 0 <= p - 1 < total_pages (ShopView_init l (p - 1)))
      by (rewrite (total_pages_any l (p - 1) p); lia).
    eexists. split; [|split; [exact Hq|]].
    + rewrite (on_page_turn_tag false i p st e0 rest f0 f1 frest Hemb Hfields).
      rewrite Hl. reflexivity.
    + apply page_in_range_nonempty; exact Hq.
Qed.

Lemma enabled_buttons_stay_in_range_witness :
  exists embed,
    on_page_turn (Demo.click "2" "3") "next_page_1" Demo.backend7
    = (inr (UpdateMessage embed (ShopView_init Demo.seven_items 2)),
       Demo.backend7).
Proof.
  assert (Hp : 0 <= 1 < total_pages (ShopView_init Demo.seven_items 1))
    by (vm_compute; split; congruence).
  destruct (proj1 (enabled_buttons_stay_in_range Demo.seven_items 1
                     (Demo.click "2" "3") Demo.backend7
                     (Demo.shop_embed "2" "3") []
                     (mkField "Your Balance" "**100 coins**" true)
                     (mkField "Page" "2/3" true) []
                     (prev_button 1) (next_button 1 3)
                     Hp eq_refl eq_refl eq_refl eq_refl) eq_refl)
    as (embed & Hturn & _).
  exists embed. exact Hturn.
Defined.

(** ** Purchase buttons and pages *)

Section ButtonFacts.

Lemma str_inj x y : Py.str x = Py.str y -> x = y.
Proof.
  intros H. pose proof (int_str x) as Hx. rewrite H, int_str in Hx.
  congruence.
Qed.

Lemma NoDup_map_injective {A B} (f : A -> B) (l : list A) :
  (forall a b, f a = f b -> a = b) -> NoDup l -> NoDup (map f l).
Proof.
  intros Hinj. induction 1 as [|a l Hnotin Hnd IH]; simpl; constructor; auto.
  intros Hin. apply in_map_iff in Hin as (b & Hb & Hbl).
  apply Hinj in Hb. now subst.
Qed.

Lemma NoDup_slice {A} (l : list A) (s e : Z) :
  NoDup l -> NoDup (Py.slice l s e).
Proof.
  intros H. unfold Py.slice.
  set (m := Z.to_nat (Py.clamp_index (Z.of_nat (List.length l)) s)).
  set (k := Z.to_nat _).
  rewrite <- (firstn_skipn m l) in H. apply NoDup_app_remove_l in H.
  rewrite <- (firstn_skipn k (skipn m l)) in H.
  now apply NoDup_app_remove_r in H.
Qed.

Lemma map_slice {A B} (f : A -> B) (l : list A) (s e : Z) :
  map f (Py.slice l s e) = Py.slice (map f l) s e.
Proof.
  unfold Py.slice. now rewrite length_map, skipn_map, firstn_map.
Qed.

Lemma pages_cover {A} (n : nat) : forall l : list A,
  (List.length l <= 3 * n)%nat ->
  List.concat (map (fun k => firstn 3 (skipn (3 * k) l)) (seq 0 n)) = l.
Proof.
  induction n as [|n IH]; intros l Hl.
  - destruct l; [reflexivity|simpl in Hl; lia].
  - cbn [seq map List.concat]. rewrite <- seq_shift, map_map.
    rewrite (map_ext _ (fun k => firstn 3 (skipn (3 * k) (skipn 3 l)))).
    + rewrite IH by (rewrite length_skipn; lia).
      apply (firstn_skipn 3 l).
    + intros k. rewrite skipn_skipn. do 2 f_equal. lia.
Qed.

End ButtonFacts.

(** X12: a purchase button is tagged by its item's role id and nothing
    else: two buttons carry the same tag exactly when their items have the
    same role id.  Hence, when the role ids of the item list are pairwise
    distinct, the purchase buttons of any page carry pairwise distinct
    tags; and each button remembers the item it was built from. *)
Theorem buy_tags_distinct (l : list ShopItem) (p : Z) :
  (forall a b,
      custom_id (buy_button (BuyButton_init a))
      = custom_id (buy_button (BuyButton_init b))
      <-> role_id a = role_id b)
  /\ (NoDup (map role_id l) ->
      NoDup (map (fun b => custom_id (buy_button b))
                 (purchase_controls (ShopView_init l p))))
  /\ map buy_item (purchase_controls (ShopView_init l p))
     = Py.slice l (p * 3) (p * 3 + 3).
Proof.
  split; [|split].
  - intros a b. cbn [BuyButton_init buy_button custom_id]. split.
    + intros H. injection H as H. now apply str_inj.
    + now intros ->.
  - intros Hnd. rewrite purchase_controls_eq, map_map.
    cbn [BuyButton_init buy_button custom_id].
    rewrite <- (map_map role_id (fun r => "buy_" ++ Py.str r)).
    apply NoDup_map_injective.
    + intros x y H. injection H as H. now apply str_inj.
    + rewrite map_slice. now apply NoDup_slice.
  - rewrite purchase_controls_eq, map_map. cbn [BuyButton_init buy_item].
    apply map_id.
Qed.

Lemma buy_tags_distinct_witness :
  NoDup (map (fun b => custom_id (buy_button b))
             (purchase_controls (ShopView_init Demo.seven_items 1))).
Proof.
  apply (proj1 (proj2 (buy_tags_distinct Demo.seven_items 1))).
  apply NoDup_map_injective with (f := fun n => 1000 + n) (l := [1;2;3;4;5;6;7]).
  - intros a b H. lia.
  - repeat constructor; simpl; intuition lia.
Defined.

(** X13: the pages [0 .. total_pages - 1] show every item exactly once and
    in order: the purchase controls of these pages, one page after the
    other, are the purchase buttons of the whole item list.  Each of these
    pages shows between one and three controls. *)
Theorem pages_show_every_item_once (l : list ShopItem) :
  List.concat (map (fun k => purchase_controls (ShopView_init l (Z.of_nat k)))
              (seq 0 (Z.to_nat (total_pages (ShopView_init l 0)))))
  = map BuyButton_init l
  /\ (forall k,
        (k < Z.to_nat (total_pages (ShopView_init l 0)))%nat ->
        (1 <= List.length (purchase_controls (ShopView_init l (Z.of_nat k)))
         <= 3)%nat).
Proof.
  pose proof (total_pages_ceil l 0) as [Hlo Hhi].
  split.
  - rewrite (map_ext _ (fun k => map BuyButton_init
                                   (firstn 3 (skipn (3 * k) l)))).
    + rewrite <- map_map, <- concat_map. f_equal.
      apply pages_cover. lia.
    + intros k. rewrite purchase_controls_eq, slice_firstn_skipn by lia.
      do 3 f_equal; lia.
  - intros k Hk. apply page_in_range_nonempty.
    rewrite (total_pages_any l (Z.of_nat k) 0). lia.
Qed.

Lemma pages_show_every_item_once_witness :
  (purchase_controls (ShopView_init Demo.seven_items 0)
   ++ purchase_controls (ShopView_init Demo.seven_items 1)
   ++ purchase_controls (ShopView_init Demo.seven_items 2))%list
  = map BuyButton_init Demo.seven_items.
Proof.
  pose proof (proj1 (pages_show_every_item_once Demo.seven_items)) as H.
  cbn [seq map List.concat Z.to_nat total_pages] in H.
  rewrite <- H. reflexivity.
Defined.

(** X14: a page-turn tag is not checked against the pages, and Python's
    slice reads a negative start from the end of the list.  The view of
    page [-1] (what a replayed [prev_page_0] tag asks for) shows no purchase
    control.  The view of a page [p <= -2] shows the items at positions
    [max(0, n + 3p) .. max(0, n + 3p + 3) - 1] of the [n] items, counted
    from the front.  In both cases the "previous" button is enabled. *)
Theorem negative_page (l : list ShopItem) (p : Z) :
  p < 0 ->
  (p = -1 -> purchase_controls (ShopView_init l p) = [])
  /\ (p <= -2 ->
      purchase_controls (ShopView_init l p)
      = map BuyButton_init
          (firstn (Z.to_nat (Z.max 0 (Z.of_nat (List.length l) + 3 * p + 3))
                   - Z.to_nat (Z.max 0 (Z.of_nat (List.length l) + 3 * p)))
                  (skipn (Z.to_nat
                            (Z.max 0 (Z.of_nat (List.length l) + 3 * p)))
                         l)))
  /\ map disabled (firstn 1 (nav_controls (ShopView_init l p))) = [false].
Proof.
  intros Hp. set (n := Z.of_nat (List.length l)).
  assert (Hn : 0 <= n) by (unfold n; lia).
  split; [|split].
  - intros ->. rewrite purchase_controls_eq. unfold Py.slice. fold n.
    destruct (clamp_index_cases n (-1 * 3) Hn)
      as [[? ->]|[[? ->]|[[? ->]|[? ->]]]];
      destruct (clamp_index_cases n (-1 * 3 + 3) Hn)
        as [[? ->]|[[? ->]|[[? ->]|[? ->]]]]; try lia;
      (replace (Z.to_nat _) with 0%nat by lia); reflexivity.
  - intros Hp2. rewrite purchase_controls_eq. unfold Py.slice. fold n.
    f_equal.
    destruct (clamp_index_cases n (p * 3) Hn)
      as [[? ->]|[[? ->]|[[? ->]|[? ->]]]];
      destruct (clamp_index_cases n (p * 3 + 3) Hn)
        as [[? ->]|[[? ->]|[[? ->]|[? ->]]]]; try lia;
      f_equal; try lia; f_equal; lia.
  - rewrite nav_controls_eq. cbn [firstn map prev_button disabled].
    destruct (Z.eqb_spec p 0); [lia|reflexivity].
Qed.

Lemma negative_page_witness :
  purchase_controls (ShopView_init Demo.seven_items (-2))
  = map BuyButton_init (map Demo.item_n [2; 3; 4])
  /\ purchase_controls (ShopView_init Demo.seven_items (-1)) = [].
Proof.
  split.
  - rewrite (proj1 (proj2 (negative_page Demo.seven_items (-2) ltac:(lia))))
      by lia.
    reflexivity.
  - apply (proj1 (negative_page Demo.seven_items (-1) ltac:(lia))).
    reflexivity.
Defined.

(** ** The outcomes of the web handler *)

(** X15: every outcome of [handle_interactions].  It leaves with an
    exception only when the body is not JSON, and then the exception is
    [JSONDecodeError] and the backend is untouched: no exception raised by
    [process_request] ever leaves the handler.  Otherwise it answers 200,
    401 or 500; a 401 leaves the backend untouched. *)
Theorem gateway_outcomes (Json : Type)
  (process_request : Json -> string -> string -> M unit)
  (request : Request Json) (st : Backend) :
  match handle_interactions Json process_request request st with
  | (inl e, st') =>
      e = JSONDecodeError /\ json_body request = None /\ st' = st
  | (inr code, st') =>
      json_body request <> None
      /\ (code = 200 \/ code = 401 \/ code = 500)
      /\ (code = 401 -> st' = st)
  end.
Proof.
  unfold handle_interactions, request_json, of_option, bind, ret, raise,
    try_except.
  destruct (json_body request) as [data|]; [|auto].
  destruct (signature_header request) as [[|a sg]|];
    destruct (timestamp_header request) as [[|b ts]|];
    cbn [falsy nonempty negb orb];
    try (repeat split; auto; discriminate).
  destruct (process_request data (String a sg) (String b ts) st) as [[e|u] st1];
    repeat split; auto; discriminate.
Qed.
